(** * GcpLogger: the request/response logging middleware

    A shallow embedding of [src/middleware/GcpLogger.ts] (class [GcpLogger])
    and the properties of its helpers and of its two Express hooks,
    [request()] and [error()].

    Conventions of the embedding.
    - A JavaScript string is the list of its UTF-16 code units, so that
      [length] and [slice] count what [String.prototype.length] and
      [String.prototype.slice] count.
    - A JavaScript object used as a dictionary ([req.headers],
      [process.env]) is a finite map.
    - Effects (the monotonic clock, the UUID generator, the two console
      channels, the ad-hoc [requestId] property written on the request,
      listeners registered on the response, thrown exceptions) are threaded
      through a state-and-exception monad [M].
    - Primitives of the JavaScript platform that the class calls but does
      not define ([toLowerCase], [JSON.stringify], number formatting) are
      the fields of the interface [Platform]. *)

From Stdlib Require Import ZArith NArith String Ascii Lia.
From stdpp Require Import base option list gmap.

(** ** JavaScript strings *)

Definition jsstring : Type := list N.

(** The code units of an ASCII literal. *)
Fixpoint js (s : string) : jsstring :=
  match s with
  | EmptyString => []
  | String c r => N_of_ascii c :: js r
  end.

(** [!!s] for a string: only the empty string is falsy. *)
Definition truthy (s : jsstring) : bool :=
  match s with
  | [] => false
  | _ :: _ => true
  end.

(** [a === b] on strings. *)
Fixpoint str_eqb (a b : jsstring) : bool :=
  match a, b with
  | [], [] => true
  | x :: a', y :: b' => N.eqb x y && str_eqb a' b'
  | _, _ => false
  end.

(** [s.split(sep)] for a one-code-unit separator: the pieces between the
    occurrences of [sep]; there is always at least one piece. *)
Fixpoint split (sep : N) (s : jsstring) : list jsstring :=
  match s with
  | [] => [[]]
  | c :: r =>
      if N.eqb c sep then [] :: split sep r
      else match split sep r with
           | [] => [[c]]
           | p :: ps => (c :: p) :: ps
           end
  end.

(** [s.slice(0, e)]: a negative [e] counts from the end, and the result is
    clipped to the string. *)
Definition slice0 (s : jsstring) (e : Z) : jsstring :=
  let len := Z.of_nat (length s) in
  let stop := if (e <? 0)%Z then Z.max (len + e) 0 else Z.min e len in
  take (Z.to_nat stop) s.

Definition slash : N := 47.
Definition ellipsis : N := 8230.

(** ** Header values, exceptions and completions *)

(** A value of [IncomingHttpHeaders]: [string | string[]]; an absent header
    ([undefined]) is a failed lookup. *)
Inductive HeaderValue :=
| HStr (s : jsstring)
| HArr (l : list jsstring).

(** [!!v] for a header value: every array is truthy, the empty one too. *)
Definition truthy_header (v : HeaderValue) : bool :=
  match v with
  | HStr s => truthy s
  | HArr _ => true
  end.

(** [o || d] on an optional header value. *)
Definition header_or (o : option HeaderValue) (d : HeaderValue) : HeaderValue :=
  match o with
  | Some v => if truthy_header v then v else d
  | None => d
  end.

(** The shape in which Node hands over [req.headers]: duplicates of a header
    are joined into one string, and only set-cookie holds an array. *)
Definition node_headers (hs : gmap jsstring HeaderValue) : Prop :=
  forall (k : jsstring) (l : list jsstring),
    hs !! k = Some (HArr l) -> k = js "set-cookie".


Inductive Exn :=
| TypeError (what : jsstring)
| Thrown (value : jsstring).

Inductive completion (A : Type) :=
| Normal (a : A)
| Throw (e : Exn).
Arguments Normal {A} a.
Arguments Throw {A} e.

(** [try { body } catch { handler }] *)
Definition try_catch {A} (body : completion A) (handler : completion A) : completion A :=
  match body with
  | Normal a => Normal a
  | Throw _ => handler
  end.

(** ** The platform interface *)

Class Platform := {
  (** values other than strings that [req.body] and [req.query] may hold *)
  js_value : Type;
  (** [JSON.stringify(v)]: a text, [undefined], or an exception *)
  JSON_stringify : js_value -> completion (option jsstring);
  toLowerCase : jsstring -> jsstring;
  toUpperCase : jsstring -> jsstring;
  (** the template [`${ms / 1000}s`] *)
  seconds_text : Z -> jsstring;
}.

(** A [RegExp] without the [g] and [y] flags, seen through [rx.test]. *)
Record RegExp := { test : jsstring -> bool }.

(** [/^\/healthz$/], [/^\/metrics$/], [/^\/favicon\.ico$/]: a pattern
    anchored at both ends and made of literal characters only. *)
Definition anchored_literal (s : string) : RegExp :=
  {| test := fun p => str_eqb p (js s) |}.








(** ** crypto.randomUUID *)

Definition hex_digit (d : N) : N :=
  if (d <? 10)%N then (48 + d)%N else (87 + d)%N.

(** The [n] lowest hexadecimal digits of [x], most significant first. *)
Fixpoint hex (n : nat) (x : N) : jsstring :=
  match n with
  | O => []
  | S k => hex k (x / 16)%N ++ [hex_digit (x mod 16)%N]
  end.

(** A version 4 UUID in its 36-character form, from 128 bits of entropy. *)
Definition uuid_text (r : N) : jsstring :=
  hex 8 (N.shiftr r 96) ++ js "-" ++
  hex 4 (N.shiftr r 80) ++ js "-" ++
  js "4" ++ hex 3 (N.shiftr r 64) ++ js "-" ++
  [hex_digit (8 + N.shiftr r 60 mod 4)%N] ++ hex 3 (N.shiftr r 48) ++ js "-" ++
  hex 12 r.

(** ** statusToSeverity *)

Inductive Severity := INFO | WARNING | ERROR.

Definition statusToSeverity (status : Z) : Severity :=
  if (status >=? 500)%Z then ERROR
  else if (status >=? 400)%Z then WARNING
  else INFO.

Definition severity_text (s : Severity) : jsstring :=
  match s with
  | INFO => js "INFO"
  | WARNING => js "WARNING"
  | ERROR => js "ERROR"
  end.

Section Logger.
Context `{Platform}.

(** ** The Express request, response and failure objects *)

Inductive Body :=
| BodyString (s : jsstring)   (* typeof req.body === "string" *)
| BodyValue (v : js_value).   (* anything else, undefined included *)

Record Request := {
  method : jsstring;
  originalUrl : jsstring;
  url : jsstring;
  path : jsstring;
  query : js_value;
  headers : gmap jsstring HeaderValue;
  body : Body;
  protocol : option jsstring;
  ip : option jsstring;
  (** the property [(req as any).requestId], absent until written *)
  requestId : option HeaderValue;
}.

(** What the completion callback closes over by value. *)
Record FinishListener := {
  started : Z;
  captured_requestId : HeaderValue;
  captured_trace : option jsstring;
}.

Record Response := {
  statusCode : Z;
  finish_listeners : list FinishListener;   (* res.on("finish", ...) *)
}.

(** [err: any], read through [err?.message] and [err?.stack?.toString?.()]. *)
Record Failure := {
  message : option jsstring;
  stack : option jsstring;
  other_props : list (jsstring * jsstring);
}.

(** ** Options and the constructor *)

Definition GetUserIdFn : Type := Request -> completion (option jsstring).

Record GcpLoggerOptions := {
  opt_redactHeaders : option (list jsstring);
  opt_captureBody : option bool;
  opt_maxBodyLength : option Z;
  opt_getUserId : option GetUserIdFn;
  opt_skipPaths : option (list RegExp);
  opt_projectIdEnvVar : option jsstring;
}.

(** [Required<GcpLoggerOptions>], the private field [opts]. *)
Record Opts := {
  redactHeaders : list jsstring;
  captureBody : bool;
  maxBodyLength : Z;
  getUserId : GetUserIdFn;
  skipPaths : list RegExp;
  projectIdEnvVar : jsstring;
}.

Definition default_redactHeaders : list jsstring :=
  [js "authorization"; js "cookie"].

Definition default_skipPaths : list RegExp :=
  [anchored_literal "/healthz"; anchored_literal "/metrics";
   anchored_literal "/favicon.ico"].

Definition new_GcpLogger (options : GcpLoggerOptions) : Opts :=
  {| redactHeaders :=
       map toLowerCase (default default_redactHeaders (opt_redactHeaders options));
     captureBody := default false (opt_captureBody options);
     maxBodyLength := default 10000%Z (opt_maxBodyLength options);
     getUserId := default (fun _ => Normal None) (opt_getUserId options);
     skipPaths := default default_skipPaths (opt_skipPaths options);
     projectIdEnvVar := default (js "GCP_PROJECT") (opt_projectIdEnvVar options) |}.

Definition no_options : GcpLoggerOptions :=
  {| opt_redactHeaders := None; opt_captureBody := None;
     opt_maxBodyLength := None; opt_getUserId := None;
     opt_skipPaths := None; opt_projectIdEnvVar := None |}.

(** ** The pure helpers *)

Definition shouldSkip (o : Opts) (p : jsstring) : bool :=
  existsb (fun rx => test rx p) (skipPaths o).

(** [xs.includes(x)] *)
Definition includes (xs : list jsstring) (x : jsstring) : bool :=
  existsb (fun y => str_eqb y x) xs.

Definition REDACTED : jsstring := js "[REDACTED]".

(** The test of [safeHeaders]: [redactHeaders.includes(k.toLowerCase())]. *)
Definition masks (o : Opts) (k : jsstring) : bool :=
  includes (redactHeaders o) (toLowerCase k).

(** The loop body of [safeHeaders]: [headers[k] = ... ? "[REDACTED]" : v]. *)
Definition safeHeaders_step (o : Opts) (k : jsstring) (v : HeaderValue)
    (acc : gmap jsstring HeaderValue) : gmap jsstring HeaderValue :=
  <[k := if masks o k then HStr REDACTED else v]> acc.

Definition safeHeaders (o : Opts) (r : Request) : gmap jsstring HeaderValue :=
  map_fold (safeHeaders_step o) ∅ (headers r).

Definition truncated_marker : jsstring := ellipsis :: js "[truncated]".
Definition unserializable_marker : jsstring := js "[unserializable body]".

(** [typeof req.body === "string" ? req.body : JSON.stringify(req.body)] *)
Definition raw_body (r : Request) : completion (option jsstring) :=
  match body r with
  | BodyString s => Normal (Some s)
  | BodyValue v => JSON_stringify v
  end.

Definition safeBody (o : Opts) (r : Request) : completion (option jsstring) :=
  if negb (captureBody o) then Normal None
  else
    try_catch
      (match raw_body r with
       | Throw e => Throw e
       | Normal None => Normal None
       | Normal (Some raw) =>
           if negb (truthy raw) then Normal None
           else if (Z.of_nat (length raw) >? maxBodyLength o)%Z
                then Normal (Some (slice0 raw (maxBodyLength o) ++ truncated_marker))
                else Normal (Some raw)
       end)
      (Normal (Some unserializable_marker)).

(** [a || b] on optional strings. *)
Definition text_or (a b : option jsstring) : option jsstring :=
  match a with
  | Some s => if truthy s then Some s else b
  | None => b
  end.

(** [!!a] on an optional string. *)
Definition truthy_text (a : option jsstring) : bool :=
  match a with
  | Some s => truthy s
  | None => false
  end.

Definition trace_header_name : jsstring := js "x-cloud-trace-context".

(** The constant [projectId] of [buildTrace]:
    [env.GOOGLE_CLOUD_PROJECT || env.GCLOUD_PROJECT || env[projectIdEnvVar]]. *)
Definition projectId (o : Opts) (env : gmap jsstring jsstring) : option jsstring :=
  text_or (text_or (env !! js "GOOGLE_CLOUD_PROJECT") (env !! js "GCLOUD_PROJECT"))
          (env !! projectIdEnvVar o).

(** The constant [traceId] of [buildTrace]: [traceHeader.split("/")[0]]. *)
Definition traceId (traceHeader : jsstring) : option jsstring :=
  split slash traceHeader !! 0%nat.

Definition buildTrace (o : Opts) (env : gmap jsstring jsstring) (r : Request)
    : completion (option jsstring) :=
  let traceHeader := header_or (headers r !! trace_header_name) (HStr []) in
  match traceHeader with
  | HArr _ => Throw (TypeError (js "traceHeader.split is not a function"))
  | HStr h =>
      if truthy_text (projectId o env) && truthy_text (traceId h)
      then Normal (Some (js "projects/" ++ default [] (projectId o env) ++
                         js "/traces/" ++ default [] (traceId h)))
      else Normal None
  end.

(** ** Log entries *)

(** The values an entry's object literal holds. *)
#[warnings="-register-all"]
Inductive JsVal :=
| VUndefined
| VNull
| VNum (z : Z)
| VStr (s : jsstring)
| VArr (l : list jsstring)
| VHeaders (h : gmap jsstring HeaderValue)
| VOpaque (v : js_value)
| VObj (props : list (jsstring * JsVal)).

(** An object literal: its properties in source order. *)
Definition Entry : Type := list (jsstring * JsVal).

Definition of_text (a : option jsstring) : JsVal :=
  match a with
  | Some s => VStr s
  | None => VUndefined
  end.

Definition of_header (a : option HeaderValue) : JsVal :=
  match a with
  | Some (HStr s) => VStr s
  | Some (HArr l) => VArr l
  | None => VUndefined
  end.

(** [x ?? null] *)
Definition or_null (a : option jsstring) : JsVal :=
  match a with
  | Some s => VStr s
  | None => VNull
  end.

(** [e[k]] for an own property of an object literal. *)
Fixpoint prop (k : jsstring) (e : Entry) : option JsVal :=
  match e with
  | [] => None
  | (k', v) :: rest => if str_eqb k' k then Some v else prop k rest
  end.

(** [JSON.stringify] leaves out a property whose value is [undefined]. *)
Definition present (v : JsVal) : option JsVal :=
  match v with
  | VUndefined => None
  | _ => Some v
  end.

(** The property as [JSON.stringify] writes it. *)
Definition written (k : string) (e : Entry) : option JsVal :=
  match prop (js k) e with
  | Some v => present v
  | None => None
  end.

(** A property of the nested object under [k]. *)
Definition written_in (k k' : string) (e : Entry) : option JsVal :=
  match written k e with
  | Some (VObj props) => written k' props
  | _ => None
  end.

(** [req.originalUrl || req.url] *)
Definition requestUrl (r : Request) : jsstring :=
  if truthy (originalUrl r) then originalUrl r else url r.

Definition request_entry (o : Opts) (r : Request) (rs : Response)
    (l : FinishListener) (durationMs : Z) (userId : option jsstring)
    (captured : option jsstring) : Entry :=
  [ (js "severity", VStr (severity_text (statusToSeverity (statusCode rs))));
    (js "message", VStr (js "HTTP request"));
    (js "httpRequest", VObj
       [ (js "requestMethod", VStr (method r));
         (js "requestUrl", VStr (requestUrl r));
         (js "status", VNum (statusCode rs));
         (js "userAgent", of_header (headers r !! js "user-agent"));
         (js "referer", of_header (headers r !! js "referer"));
         (js "protocol", of_text (toUpperCase <$> protocol r));
         (js "remoteIp", of_text (ip r));
         (js "latency", VStr (seconds_text (Z.max durationMs 0))) ]);
    (js "trace", of_text (captured_trace l));
    (js "requestId", of_header (Some (captured_requestId l)));
    (js "type", VStr (js "request"));
    (js "path", VStr (path r));
    (js "query", VOpaque (query r));
    (js "durationMs", VNum durationMs);
    (js "userId", or_null userId);
    (js "host", of_header (headers r !! js "host"));
    (js "headers", VHeaders (safeHeaders o r));
    (js "body", of_text captured) ].

(** [err?.message || "Unhandled error"] *)
Definition error_message (err : Failure) : jsstring :=
  match message err with
  | Some m => if truthy m then m else js "Unhandled error"
  | None => js "Unhandled error"
  end.

Definition error_entry (o : Opts) (err : Failure) (r : Request) (rs : Response)
    (rid : HeaderValue) (userId : option jsstring) (trace : option jsstring)
    : Entry :=
  [ (js "severity", VStr (js "ERROR"));
    (js "message", VStr (error_message err));
    (js "trace", of_text trace);
    (js "httpRequest", VObj
       [ (js "requestMethod", VStr (method r));
         (js "requestUrl", VStr (requestUrl r));
         (js "status", VNum (statusCode rs));
         (js "userAgent", of_header (headers r !! js "user-agent"));
         (js "remoteIp", of_text (ip r)) ]);
    (js "type", VStr (js "error"));
    (js "requestId", of_header (Some rid));
    (js "path", VStr (path r));
    (js "userId", or_null userId);
    (js "stack", of_text (stack err));
    (js "headers", VHeaders (safeHeaders o r)) ].

(** ** The world the hooks run in *)

Record State := {
  env : gmap jsstring jsstring;        (* process.env *)
  hrtime : nat -> Z;                   (* the readings of process.hrtime.bigint() *)
  hrtime_reads : nat;                  (* how many were taken *)
  entropy : nat -> N;                  (* the random bits behind each UUID *)
  uuid_calls : nat;                    (* how many UUIDs were generated *)
  console_log : list Entry;            (* informational channel, oldest first *)
  console_error : list Entry;          (* error channel, oldest first *)
  req : Request;
  res : Response;
}.

Definition M (A : Type) : Type := State -> completion A * State.

#[export] Instance M_ret : MRet M := fun A a s => (Normal a, s).

#[export] Instance M_bind : MBind M := fun A B f m s =>
  match m s with
  | (Normal a, s') => f a s'
  | (Throw e, s') => (Throw e, s')
  end.

#[export] Instance M_fmap : FMap M := fun A B f m s =>
  match m s with
  | (Normal a, s') => (Normal (f a), s')
  | (Throw e, s') => (Throw e, s')
  end.

Definition gets {A} (f : State -> A) : M A := fun s => (Normal (f s), s).

(** A pure computation that may throw. *)
Definition lift {A} (c : completion A) : M A := fun s => (c, s).

(** The state after one more clock reading. *)
Definition tick (s : State) : State :=
  {| env := env s; hrtime := hrtime s; hrtime_reads := S (hrtime_reads s);
     entropy := entropy s; uuid_calls := uuid_calls s;
     console_log := console_log s; console_error := console_error s;
     req := req s; res := res s |}.

(** The state after one more UUID was generated. *)
Definition draw (s : State) : State :=
  {| env := env s; hrtime := hrtime s; hrtime_reads := hrtime_reads s;
     entropy := entropy s; uuid_calls := S (uuid_calls s);
     console_log := console_log s; console_error := console_error s;
     req := req s; res := res s |}.

Definition with_log (e : Entry) (s : State) : State :=
  {| env := env s; hrtime := hrtime s; hrtime_reads := hrtime_reads s;
     entropy := entropy s; uuid_calls := uuid_calls s;
     console_log := console_log s ++ [e]; console_error := console_error s;
     req := req s; res := res s |}.

Definition with_error (e : Entry) (s : State) : State :=
  {| env := env s; hrtime := hrtime s; hrtime_reads := hrtime_reads s;
     entropy := entropy s; uuid_calls := uuid_calls s;
     console_log := console_log s; console_error := console_error s ++ [e];
     req := req s; res := res s |}.

Definition set_requestId_field (v : HeaderValue) (r : Request) : Request :=
  {| method := method r; originalUrl := originalUrl r; url := url r;
     path := path r; query := query r; headers := headers r; body := body r;
     protocol := protocol r; ip := ip r; requestId := Some v |}.

Definition with_requestId (v : HeaderValue) (s : State) : State :=
  {| env := env s; hrtime := hrtime s; hrtime_reads := hrtime_reads s;
     entropy := entropy s; uuid_calls := uuid_calls s;
     console_log := console_log s; console_error := console_error s;
     req := set_requestId_field v (req s); res := res s |}.

Definition with_listener (l : FinishListener) (s : State) : State :=
  {| env := env s; hrtime := hrtime s; hrtime_reads := hrtime_reads s;
     entropy := entropy s; uuid_calls := uuid_calls s;
     console_log := console_log s; console_error := console_error s;
     req := req s;
     res := {| statusCode := statusCode (res s);
               finish_listeners := finish_listeners (res s) ++ [l] |} |}.

(** [process.hrtime.bigint()] *)
Definition hrtime_bigint : M Z := fun s =>
  (Normal (hrtime s (hrtime_reads s)), tick s).

(** [crypto.randomUUID()] *)
Definition randomUUID : M jsstring := fun s =>
  (Normal (uuid_text (entropy s (uuid_calls s))), draw s).

(** [console.log(JSON.stringify(e))] *)
Definition log_info (e : Entry) : M unit := fun s => (Normal tt, with_log e s).

(** [console.error(JSON.stringify(e))] *)
Definition log_error (e : Entry) : M unit := fun s => (Normal tt, with_error e s).

(** [(req as any).requestId = v] *)
Definition set_requestId (v : HeaderValue) : M unit := fun s =>
  (Normal tt, with_requestId v s).

(** [res.on("finish", l)] *)
Definition res_on_finish (l : FinishListener) : M unit := fun s =>
  (Normal tt, with_listener l s).

(** ** The two hooks *)

(** How a hook hands control on: [next()] or [next(err)]. *)
Inductive Control :=
| Next
| NextWith (err : Failure).

Definition request_id_header : jsstring := js "x-request-id".

(** [!!v] on an optional header value. *)
Definition carries (v : option HeaderValue) : bool :=
  match v with
  | Some x => truthy_header x
  | None => false
  end.

(** [v || crypto.randomUUID()], the generator being called only when [v]
    is falsy. *)
Definition or_randomUUID (v : option HeaderValue) : M HeaderValue :=
  match v with
  | Some x => if truthy_header x then mret x else HStr <$> randomUUID
  | None => HStr <$> randomUUID
  end.

(** The middleware returned by [request()]. *)
Definition request (o : Opts) : M Control :=
  r ← gets req;
  if shouldSkip o (path r) then mret Next
  else
    t0 ← hrtime_bigint;
    rid ← or_randomUUID (headers r !! request_id_header);
    set_requestId rid;;
    e ← gets env;
    r' ← gets req;
    trace ← lift (buildTrace o e r');
    res_on_finish {| started := t0; captured_requestId := rid;
                     captured_trace := trace |};;
    mret Next.

(** [Number((now - started) / BigInt(1_000_000))]: the quotient of BigInt
    division is truncated towards zero. *)
Definition elapsed_ms (now t0 : Z) : Z := Z.quot (now - t0) 1000000.

(** The callback that [request()] registers on ["finish"]. *)
Definition on_finish (o : Opts) (l : FinishListener) : M unit :=
  now ← hrtime_bigint;
  r ← gets req;
  userId ← lift (getUserId o r);
  rs ← gets res;
  captured ← lift (safeBody o r);
  log_info (request_entry o r rs l (elapsed_ms now (started l)) userId captured).

Fixpoint call_listeners (o : Opts) (ls : list FinishListener) : M unit :=
  match ls with
  | [] => mret tt
  | l :: rest => on_finish o l;; call_listeners o rest
  end.

(** [res.emit("finish")]: the listeners run in registration order. *)
Definition emit_finish (o : Opts) : M unit :=
  rs ← gets res;
  call_listeners o (finish_listeners rs).

(** The error-handling middleware returned by [error()]. *)
Definition error (o : Opts) (err : Failure) : M Control :=
  r ← gets req;
  rid ← or_randomUUID (requestId r);
  userId ← lift (getUserId o r);
  e ← gets env;
  trace ← lift (buildTrace o e r);
  rs ← gets res;
  log_error (error_entry o err r rs rid userId trace);;
  mret (NextWith err).

(** The state [request] leaves once the identifier is stored on the
    request: one clock reading, at most one UUID. *)
Definition identified (s : State) : State :=
  let v := headers (req s) !! request_id_header in
  with_requestId (header_or v (HStr (uuid_text (entropy s (uuid_calls s)))))
                 (if carries v then tick s else draw (tick s)).

(** The entries a run from [s] to [s'] wrote on either channel. *)
Definition emitted (s s' : State) : list Entry :=
  drop (length (console_log s)) (console_log s') ++
  drop (length (console_error s)) (console_error s').

(** [req] with another [headers] object. *)
Definition with_headers (hs : gmap jsstring HeaderValue) (r : Request) : Request :=
  {| method := method r; originalUrl := originalUrl r; url := url r;
     path := path r; query := query r; headers := hs; body := body r;
     protocol := protocol r; ip := ip r; requestId := requestId r |}.

(** The logger the application installs: [new GcpLogger()], no options. *)
Definition app_logger : Opts := new_GcpLogger no_options.

(** One request from the first middleware entry to the response's
    completion: [request()] runs, then ["finish"] fires. *)
Definition lifecycle (o : Opts) : M unit := request o;; emit_finish o.

End Logger.

(** ** A concrete platform, for running the model on examples

    Case mapping restricted to ASCII letters, a four-value universe for
    non-string bodies, and the decimal rendering of whole milliseconds. *)

Inductive sample_value :=
| SUndefined
| SNull
| SEmptyObject
| SBigInt (z : Z).

Definition sample_stringify (v : sample_value) : completion (option jsstring) :=
  match v with
  | SUndefined => Normal None
  | SNull => Normal (Some (js "null"))
  | SEmptyObject => Normal (Some (js "{}"))
  | SBigInt _ => Throw (TypeError (js "Do not know how to serialize a BigInt"))
  end.

Definition ascii_lower (c : N) : N :=
  if ((65 <=? c) && (c <=? 90))%N then (c + 32)%N else c.

Definition ascii_upper (c : N) : N :=
  if ((97 <=? c) && (c <=? 122))%N then (c - 32)%N else c.

Fixpoint digits (fuel : nat) (n : N) : jsstring :=
  match fuel with
  | O => []
  | S f =>
      if (n <? 10)%N then [(48 + n)%N]
      else digits f (n / 10)%N ++ [(48 + n mod 10)%N]
  end.

Definition decimal (n : N) : jsstring := digits (S (N.to_nat (N.log2 n))) n.

Definition sample_seconds (ms : Z) : jsstring :=
  let n := Z.to_N ms in
  let f := (n mod 1000)%N in
  let d1 := (48 + f / 100)%N in
  let d2 := (48 + (f / 10) mod 10)%N in
  let d3 := (48 + f mod 10)%N in
  decimal (n / 1000)%N ++
  (if (f =? 0)%N then []
   else 46%N :: (if negb (f mod 10 =? 0)%N then [d1; d2; d3]
                 else if negb ((f / 10) mod 10 =? 0)%N then [d1; d2]
                 else [d1])) ++
  js "s".

Definition sample_platform : Platform :=
  {| js_value := sample_value;
     JSON_stringify := sample_stringify;
     toLowerCase := map ascii_lower;
     toUpperCase := map ascii_upper;
     seconds_text := sample_seconds |}.

(** ** Sample requests, loggers and worlds *)

Section Samples.
#[local] Existing Instance sample_platform.

Definition request_with (p : string) (hs : gmap jsstring HeaderValue)
    (b : Body) : Request :=
  {| method := js "POST"; originalUrl := js p; url := js p; path := js p;
     query := SEmptyObject; headers := hs; body := b;
     protocol := Some (js "https"); ip := Some (js "10.0.0.7");
     requestId := None |}.

Definition sample_headers : gmap jsstring HeaderValue :=
  {[ js "x-api-key" := HStr (js "k-123");
     js "accept" := HStr (js "*/*");
     js "host" := HStr (js "example.com");
     js "set-cookie" := HArr [js "a=1"; js "b=2"];
     js "x-request-id" := HStr (js "req-42");
     js "x-cloud-trace-context" := HStr (js "abc123/1;o=1") ]}.

Definition sample_request : Request :=
  request_with "/api/items" sample_headers (BodyString (js "abcdefghijklmnop")).

(** The same request with an x-request-id header whose value is empty. *)
Definition empty_id_request : Request :=
  request_with "/api/items" (<[js "x-request-id" := HStr []]> sample_headers)
               (BodyString (js "abcdefghijklmnop")).

(** The same request with another body. *)
Definition request_carrying (b : Body) : Request :=
  request_with "/api/items" sample_headers b.

Definition bigint_body : Body := BodyValue (SBigInt 7).
Definition empty_object_body : Body := BodyValue SEmptyObject.
Definition undefined_body : Body := BodyValue SUndefined.

(** A request whose x-cloud-trace-context header holds an array. *)
Definition array_trace_request : Request :=
  request_with "/api/items"
    (<[js "x-cloud-trace-context" := HArr [js "abc123/1;o=1"]]> sample_headers)
    undefined_body.

Definition healthz_request : Request :=
  request_with "/healthz" sample_headers (BodyValue SUndefined).

Definition options_with (f : option GetUserIdFn) : GcpLoggerOptions :=
  {| opt_redactHeaders := Some [js "X-Api-Key"]; opt_captureBody := Some true;
     opt_maxBodyLength := Some 10%Z; opt_getUserId := f;
     opt_skipPaths := None; opt_projectIdEnvVar := None |}.

Definition sample_logger : Opts := new_GcpLogger (options_with None).

(** A logger whose user-id extractor raises. *)
Definition throwing_logger : Opts :=
  new_GcpLogger (options_with (Some (fun _ => Throw (Thrown (js "no session"))))).

Definition world (clock : nat -> Z) (r : Request) : State :=
  {| env := {[ js "GOOGLE_CLOUD_PROJECT" := js "proj1" ]};
     hrtime := clock; hrtime_reads := 0;
     entropy := fun _ => 0%N; uuid_calls := 0;
     console_log := []; console_error := [];
     req := r;
     res := {| statusCode := 200; finish_listeners := [] |} |}.

(** A clock that advances by seven milliseconds between readings. *)
Definition steady_clock (n : nat) : Z := (1000000 + 7000000 * Z.of_nat n)%Z.

Definition sample_state : State := world steady_clock sample_request.

(** A logger whose user-id extractor answers "u-7". *)
Definition identifying_logger : Opts :=
  new_GcpLogger (options_with (Some (fun _ => Normal (Some (js "u-7"))))).

(** The sample world once [request] has run in it. *)
Definition admitted_state : State := (request sample_logger sample_state).2.

(** A world whose request carries an empty x-request-id header. *)
Definition empty_id_state : State := world steady_clock empty_id_request.

(** A world whose request carries no header at all. *)
Definition bare_state : State :=
  world steady_clock (request_with "/api/items" ∅ undefined_body).

Definition boom : Failure :=
  {| message := Some (js "boom"); stack := None; other_props := [] |}.

Definition sample_listener (t0 : Z) : FinishListener :=
  {| started := t0; captured_requestId := HStr (js "req-42");
     captured_trace := Some (js "projects/proj1/traces/abc123") |}.

(** A logger given an empty list of names to redact. *)
Definition unredacting_options : GcpLoggerOptions :=
  {| opt_redactHeaders := Some []; opt_captureBody := None;
     opt_maxBodyLength := None; opt_getUserId := None;
     opt_skipPaths := Some []; opt_projectIdEnvVar := None |}.

(** A request whose only header is x-cloud-trace-context. *)
Definition traced_request (h : string) : Request :=
  request_with "/api/items" {[ js "x-cloud-trace-context" := HStr (js h) ]}
               undefined_body.

(** The sample world at the completion of a response with status 503. *)
Definition failed_state : State :=
  {| env := env sample_state; hrtime := steady_clock; hrtime_reads := 1;
     entropy := fun _ => 0%N; uuid_calls := 0;
     console_log := []; console_error := [];
     req := sample_request;
     res := {| statusCode := 503; finish_listeners := [] |} |}.

(** A world whose request carries an array in x-cloud-trace-context. *)
Definition array_trace_state : State := world steady_clock array_trace_request.



(** A world whose request is for a skipped path. *)
Definition healthz_state : State := world steady_clock healthz_request.

End Samples.

(** * Properties *)

Section Properties.
Context `{Platform}.

Implicit Types (o : Opts) (r : Request) (s : State) (k : jsstring).

(** ** Membership and the redaction loop *)

Lemma str_eqb_eq (a b : jsstring) : str_eqb a b = true <-> a = b.
Proof.
  revert b. induction a as [|x a IH]; intros [|y b]; simpl; try done.
  rewrite andb_true_iff, N.eqb_eq, IH. split.
  - by intros [-> ->].
  - intros [= -> ->]. done.
Qed.

Lemma includes_true (xs : list jsstring) (x : jsstring) :
  includes xs x = true <-> x ∈ xs.
Proof.
  unfold includes. rewrite existsb_exists. split.
  - intros (y & Hy & Heq). apply str_eqb_eq in Heq. subst y.
    by apply list_elem_of_In.
  - intros Hx. exists x. split; [by apply list_elem_of_In |].
    by apply str_eqb_eq.
Qed.

Lemma masks_constructed (options : GcpLoggerOptions) k :
  masks (new_GcpLogger options) k = true <->
  exists h, h ∈ default default_redactHeaders (opt_redactHeaders options) /\
            toLowerCase h = toLowerCase k.
Proof.
  unfold masks. rewrite includes_true. simpl.
  rewrite list_elem_of_fmap. split.
  - intros (h & Hh & Hin). exists h. by split.
  - intros (h & Hin & Hh). exists h. by split.
Qed.

(** The loop of [safeHeaders] visits every own property once: the result has
    the keys of [req.headers], each with its value or the mask. *)
Lemma safeHeaders_lookup o r k :
  safeHeaders o r !! k =
  (fun v => if masks o k then HStr REDACTED else v) <$> headers r !! k.
Proof.
  unfold safeHeaders.
  apply (map_fold_weak_ind
           (fun acc (m : gmap jsstring HeaderValue) =>
              acc !! k = (fun v => if masks o k then HStr REDACTED else v) <$> m !! k)).
  - by rewrite !lookup_empty.
  - intros i x m acc Hfresh IH. unfold safeHeaders_step.
    destruct (decide (i = k)) as [-> | Hne].
    + by rewrite !lookup_insert_eq.
    + by rewrite !lookup_insert_ne.
Qed.

(** ** What one run of each hook does *)

Lemma or_randomUUID_run (v : option HeaderValue) s :
  or_randomUUID v s =
  (Normal (header_or v (HStr (uuid_text (entropy s (uuid_calls s))))),
   if carries v then s else draw s).
Proof.
  unfold or_randomUUID, header_or, carries.
  destruct v as [x|]; [destruct (truthy_header x) |]; reflexivity.
Qed.

Lemma buildTrace_headers o (e : gmap jsstring jsstring) r r' :
  headers r' = headers r -> buildTrace o e r' = buildTrace o e r.
Proof. unfold buildTrace. by intros ->. Qed.

Lemma request_skipped o s :
  shouldSkip o (path (req s)) = true -> request o s = (Normal Next, s).
Proof.
  intros Hskip. unfold request, mbind, M_bind, gets. simpl. by rewrite Hskip.
Qed.

Lemma request_run o s :
  shouldSkip o (path (req s)) = false ->
  request o s =
  match buildTrace o (env s) (req s) with
  | Normal t =>
      (Normal Next,
       with_listener
         {| started := hrtime s (hrtime_reads s);
            captured_requestId :=
              header_or (headers (req s) !! request_id_header)
                        (HStr (uuid_text (entropy s (uuid_calls s))));
            captured_trace := t |}
         (identified s))
  | Throw e => (Throw e, identified s)
  end.
Proof.
  intros Hskip. unfold request, mbind, M_bind, gets, hrtime_bigint. simpl.
  rewrite Hskip, or_randomUUID_run. simpl.
  unfold set_requestId, lift, identified.
  rewrite (buildTrace_headers o _ (req s)).
  2: { by destruct (carries _). }
  replace (env (if carries (headers (req s) !! request_id_header)
                then tick s else draw (tick s))) with (env s)
    by (by destruct (carries _)).
  destruct (buildTrace o (env s) (req s)); reflexivity.
Qed.

Lemma safeBody_returns o r : exists out, safeBody o r = Normal out.
Proof.
  unfold safeBody. destruct (captureBody o); simpl; [| by eexists].
  destruct (raw_body r) as [[raw|]|e]; simpl; try by eexists.
  destruct (truthy raw); simpl; [| by eexists].
  destruct (_ >? _)%Z; by eexists.
Qed.

Lemma on_finish_run o (l : FinishListener) s :
  on_finish o l s =
  match getUserId o (req s), safeBody o (req s) with
  | Normal u, Normal b =>
      (Normal tt,
       with_log (request_entry o (req s) (res s) l
                   (elapsed_ms (hrtime s (hrtime_reads s)) (started l)) u b)
                (tick s))
  | Throw e, _ => (Throw e, tick s)
  | Normal _, Throw e => (Throw e, tick s)
  end.
Proof.
  unfold on_finish, mbind, M_bind, gets, hrtime_bigint, lift, log_info. simpl.
  destruct (getUserId o (req s)); [| reflexivity].
  destruct (safeBody o (req s)); reflexivity.
Qed.

Lemma on_finish_returns o (l : FinishListener) s (u : option jsstring) :
  getUserId o (req s) = Normal u ->
  exists b,
    safeBody o (req s) = Normal b /\
    on_finish o l s =
    (Normal tt,
     with_log (request_entry o (req s) (res s) l
                 (elapsed_ms (hrtime s (hrtime_reads s)) (started l)) u b)
              (tick s)).
Proof.
  intros Hu. destruct (safeBody_returns o (req s)) as [b Hb].
  exists b. split; [done |]. by rewrite on_finish_run, Hu, Hb.
Qed.

Lemma error_run o (err : Failure) s :
  error o err s =
  let s1 := if carries (requestId (req s)) then s else draw s in
  match getUserId o (req s), buildTrace o (env s) (req s) with
  | Normal u, Normal t =>
      (Normal (NextWith err),
       with_error (error_entry o err (req s) (res s)
                     (header_or (requestId (req s))
                                (HStr (uuid_text (entropy s (uuid_calls s)))))
                     u t) s1)
  | Throw e, _ => (Throw e, s1)
  | Normal _, Throw e => (Throw e, s1)
  end.
Proof.
  unfold error, mbind, M_bind, gets, lift, log_error. simpl.
  rewrite or_randomUUID_run.
  destruct (carries (requestId (req s))); simpl;
    (destruct (getUserId o (req s)); [| reflexivity]);
    (destruct (buildTrace o (env s) (req s)); reflexivity).
Qed.

(** Membership in what a run wrote, when it appended to one channel. *)
Lemma emitted_with_log (e : Entry) s s1 :
  console_log s1 = console_log s -> console_error s1 = console_error s ->
  emitted s (with_log e s1) = [e].
Proof.
  intros Hl He. unfold emitted. simpl. rewrite Hl, He.
  rewrite drop_app_length, drop_all. reflexivity.
Qed.

Lemma emitted_with_error (e : Entry) s s1 :
  console_log s1 = console_log s -> console_error s1 = console_error s ->
  emitted s (with_error e s1) = [e].
Proof.
  intros Hl He. unfold emitted. simpl. rewrite Hl, He.
  rewrite drop_app_length, drop_all. reflexivity.
Qed.

Lemma emitted_silent s s1 :
  console_log s1 = console_log s -> console_error s1 = console_error s ->
  emitted s s1 = [].
Proof.
  intros Hl He. unfold emitted. rewrite Hl, He, !drop_all. reflexivity.
Qed.

Lemma on_finish_emitted o (l : FinishListener) s :
  emitted s (on_finish o l s).2 =
  match getUserId o (req s), safeBody o (req s) with
  | Normal u, Normal b =>
      [request_entry o (req s) (res s) l
         (elapsed_ms (hrtime s (hrtime_reads s)) (started l)) u b]
  | _, _ => []
  end.
Proof.
  rewrite on_finish_run.
  destruct (getUserId o (req s)); [destruct (safeBody o (req s)) |]; simpl.
  - by apply emitted_with_log.
  - by apply emitted_silent.
  - by apply emitted_silent.
Qed.

Lemma error_emitted o (err : Failure) s :
  emitted s (error o err s).2 =
  match getUserId o (req s), buildTrace o (env s) (req s) with
  | Normal u, Normal t =>
      [error_entry o err (req s) (res s)
         (header_or (requestId (req s))
                    (HStr (uuid_text (entropy s (uuid_calls s))))) u t]
  | _, _ => []
  end.
Proof.
  rewrite error_run. simpl.
  assert (Hl : console_log (if carries (requestId (req s)) then s else draw s)
               = console_log s) by (by destruct (carries _)).
  assert (He : console_error (if carries (requestId (req s)) then s else draw s)
               = console_error s) by (by destruct (carries _)).
  destruct (getUserId o (req s)); [destruct (buildTrace o (env s) (req s)) |]; simpl.
  - by apply emitted_with_error.
  - by apply emitted_silent.
  - by apply emitted_silent.
Qed.

(** ** The claims *)

(** C2. [statusToSeverity] is a total function of the integer status code:
    it returns "ERROR" exactly for codes of 500 and above, "WARNING" exactly
    for codes from 400 to 499, and "INFO" exactly for the codes below 400. *)
Theorem statusToSeverity_classifies (status : Z) :
  (severity_text (statusToSeverity status) = js "ERROR" <-> (status >= 500)%Z) /\
  (severity_text (statusToSeverity status) = js "WARNING"
     <-> (400 <= status < 500)%Z) /\
  (severity_text (statusToSeverity status) = js "INFO" <-> (status < 400)%Z).
Proof.
  unfold statusToSeverity.
  destruct (Z.geb_spec status 500) as [H5|H5];
    [| destruct (Z.geb_spec status 400) as [H4|H4]]; simpl;
    repeat split; intros; try lia; try discriminate.
Qed.

(** C1. For a logger built from any options, [safeHeaders] gives every header
    whose name matches a configured redacted name, cases ignored, the value
    "[REDACTED]", and gives every other header its own value, a string or an
    array alike; and every entry that the completion callback or the error
    hook emits carries exactly that mapping in its [headers] field. *)
Theorem headers_redacted (options : GcpLoggerOptions) r k :
  let o := new_GcpLogger options in
  let names := default default_redactHeaders (opt_redactHeaders options) in
  ((exists h, h ∈ names /\ toLowerCase h = toLowerCase k) ->
     safeHeaders o r !! k = (fun _ => HStr REDACTED) <$> headers r !! k) /\
  ((forall h, h ∈ names -> toLowerCase h <> toLowerCase k) ->
     safeHeaders o r !! k = headers r !! k) /\
  (forall s (l : FinishListener) (e : Entry),
     req s = r -> e ∈ emitted s (on_finish o l s).2 ->
     written "headers" e = Some (VHeaders (safeHeaders o r))) /\
  (forall s (err : Failure) (e : Entry),
     req s = r -> e ∈ emitted s (error o err s).2 ->
     written "headers" e = Some (VHeaders (safeHeaders o r))).
Proof.
  intros o names. repeat split.
  - intros Hmatch. apply masks_constructed in Hmatch.
    rewrite safeHeaders_lookup. fold o in Hmatch. by rewrite Hmatch.
  - intros Hnone. rewrite safeHeaders_lookup.
    destruct (masks o k) eqn:Hm.
    + apply masks_constructed in Hm. destruct Hm as (h & Hin & Heq).
      by destruct (Hnone h Hin).
    + by destruct (headers r !! k).
  - intros s l e <- He. rewrite on_finish_emitted in He.
    destruct (getUserId o (req s)); [destruct (safeBody o (req s)) |];
      try by apply elem_of_nil in He.
    apply list_elem_of_singleton in He. subst e. reflexivity.
  - intros s err e <- He. rewrite error_emitted in He.
    destruct (getUserId o (req s));
      [destruct (buildTrace o (env s) (req s)) |];
      try by apply elem_of_nil in He.
    apply list_elem_of_singleton in He. subst e. reflexivity.
Qed.




Lemma slice0_take (raw : jsstring) (n : Z) :
  (0 <= n <= Z.of_nat (length raw))%Z -> slice0 raw n = take (Z.to_nat n) raw.
Proof.
  intros [H0 Hn]. unfold slice0.
  destruct (Z.ltb_spec n 0) as [Hneg|_]; [lia |].
  by rewrite Z.min_l.
Qed.

(** C6. [safeBody] returns nothing when [captureBody] is off. When it is on,
    the text is the body itself if that is a string and its JSON
    serialization otherwise; a serialization that raises gives the marker
    "[unserializable body]"; an empty text gives nothing; a text longer than
    [maxBodyLength] gives [text.slice(0, maxBodyLength)], which for a cap
    that is a length is the first [maxBodyLength] code units, followed by the
    truncation marker; any other text is returned whole. With a cap of 10 the
    body "abcdefghijklmnop" gives "abcdefghij…[truncated]". No call raises. *)
Theorem safeBody_captures o r :
  (captureBody o = false -> safeBody o r = Normal None) /\
  (exists out, safeBody o r = Normal out) /\
  (forall s : jsstring, body r = BodyString s -> raw_body r = Normal (Some s)) /\
  (forall v : js_value, body r = BodyValue v -> raw_body r = JSON_stringify v) /\
  (captureBody o = true ->
     (forall e : Exn, raw_body r = Throw e ->
        safeBody o r = Normal (Some (js "[unserializable body]"))) /\
     (raw_body r = Normal (Some []) -> safeBody o r = Normal None) /\
     (forall raw : jsstring, raw_body r = Normal (Some raw) -> raw <> [] ->
        ((maxBodyLength o < Z.of_nat (length raw))%Z ->
           safeBody o r =
             Normal (Some (slice0 raw (maxBodyLength o) ++
                           ellipsis :: js "[truncated]"))) /\
        ((0 <= maxBodyLength o < Z.of_nat (length raw))%Z ->
           slice0 raw (maxBodyLength o) = take (Z.to_nat (maxBodyLength o)) raw /\
           Z.of_nat (length (slice0 raw (maxBodyLength o))) = maxBodyLength o) /\
        ((Z.of_nat (length raw) <= maxBodyLength o)%Z ->
           safeBody o r = Normal (Some raw))) /\
     (maxBodyLength o = 10%Z -> body r = BodyString (js "abcdefghijklmnop") ->
        safeBody o r =
          Normal (Some (js "abcdefghij" ++ ellipsis :: js "[truncated]")))).
Proof.
  split; [| split; [| split; [| split]]].
  - intros Hoff. unfold safeBody. by rewrite Hoff.
  - apply safeBody_returns.
  - intros s Hb. unfold raw_body. by rewrite Hb.
  - intros v Hb. unfold raw_body. by rewrite Hb.
  - intros Hon. unfold safeBody. rewrite Hon. simpl.
    split; [| split; [| split]].
    + intros e ->. reflexivity.
    + intros ->. reflexivity.
    + intros raw -> Hne.
      assert (Ht : truthy raw = true) by (by destruct raw).
      rewrite Ht. simpl. split_and!.
      * intros Hlong.
        destruct (Z.gtb_spec (Z.of_nat (length raw)) (maxBodyLength o)); [| lia].
        reflexivity.
      * intros Hcap. rewrite slice0_take by lia. split; [reflexivity |].
        rewrite length_take. lia.
      * intros Hshort.
        destruct (Z.gtb_spec (Z.of_nat (length raw)) (maxBodyLength o)); [lia |].
        reflexivity.
    + intros Hcap Hb. unfold raw_body. rewrite Hb, Hcap. reflexivity.
Qed.

(** The first piece of [split] is the text before the first separator. *)
Lemma split_first (sep : N) (s : jsstring) :
  exists (t : jsstring) (ps : list jsstring) (rest : jsstring),
    split sep s = t :: ps /\ s = t ++ rest /\ (sep ∉ t) /\
    (rest = [] \/ exists rest', rest = sep :: rest').
Proof.
  induction s as [|c s IH]; simpl.
  - exists [], [], []. repeat split; [apply not_elem_of_nil | by left].
  - destruct (N.eqb_spec c sep) as [-> | Hne].
    + exists [], (split sep s), (sep :: s).
      repeat split; [apply not_elem_of_nil | right; by eexists].
    + destruct IH as (t & ps & rest & -> & -> & Hnot & Hrest).
      exists (c :: t), ps, rest. repeat split; [| done].
      intros Hin. apply elem_of_cons in Hin. destruct Hin as [-> | Hin]; done.
Qed.

Lemma traceId_prefix (h : jsstring) :
  exists t rest : jsstring,
    traceId h = Some t /\ h = t ++ rest /\ (slash ∉ t) /\
    (rest = [] \/ exists rest', rest = slash :: rest').
Proof.
  destruct (split_first slash h) as (t & ps & rest & Hs & Hh & Hnot & Hrest).
  exists t, rest. unfold traceId. rewrite Hs. by repeat split.
Qed.

Lemma truthy_nonempty (s : jsstring) : truthy s = true <-> s <> [].
Proof. destruct s; simpl; split; congruence. Qed.

Lemma text_or_l (a b : option jsstring) (s : jsstring) :
  a = Some s -> truthy s = true -> text_or a b = Some s.
Proof. intros -> Hs. simpl. by rewrite Hs. Qed.

Lemma text_or_r (a b : option jsstring) :
  truthy_text a = false -> text_or a b = b.
Proof. destruct a as [s|]; simpl; [| done]. by intros ->. Qed.

(** [buildTrace] on a header that is absent or a string. *)
Lemma buildTrace_text o (env : gmap jsstring jsstring) r (hdr : option jsstring) :
  headers r !! trace_header_name = HStr <$> hdr ->
  buildTrace o env r =
  if truthy_text (projectId o env) && truthy_text (traceId (default [] hdr))
  then Normal (Some (js "projects/" ++ default [] (projectId o env) ++
                     js "/traces/" ++ default [] (traceId (default [] hdr))))
  else Normal None.
Proof.
  intros Hh. unfold buildTrace. rewrite Hh.
  destruct hdr as [h|]; simpl; [| reflexivity].
  destruct h; reflexivity.
Qed.

(** C7. On the headers Node hands over, where x-cloud-trace-context is absent
    or one string, [buildTrace] takes the project from GOOGLE_CLOUD_PROJECT,
    else from GCLOUD_PROJECT, else from the configured variable, a variable
    that is unset or empty being passed over; it takes as trace identifier
    the text of the header before its first "/"; it returns
    "projects/{project}/traces/{trace}" when both are non-empty and nothing
    otherwise; so project "proj1" and header "abc123/1;o=1" give
    "projects/proj1/traces/abc123", and no project gives nothing. Whatever
    the text of the header, and when there is no header, the call returns
    without raising. *)
Theorem buildTrace_derives o (env : gmap jsstring jsstring) r :
  node_headers (headers r) ->
  exists hdr : option jsstring,
    headers r !! trace_header_name = HStr <$> hdr /\
    (forall p : jsstring, env !! js "GOOGLE_CLOUD_PROJECT" = Some p -> p <> [] ->
       projectId o env = Some p) /\
    (forall p : jsstring,
       truthy_text (env !! js "GOOGLE_CLOUD_PROJECT") = false ->
       env !! js "GCLOUD_PROJECT" = Some p -> p <> [] ->
       projectId o env = Some p) /\
    (truthy_text (env !! js "GOOGLE_CLOUD_PROJECT") = false ->
     truthy_text (env !! js "GCLOUD_PROJECT") = false ->
     projectId o env = env !! projectIdEnvVar o) /\
    (exists trace rest : jsstring,
       default [] hdr = trace ++ rest /\ (slash ∉ trace) /\
       (rest = [] \/ exists rest', rest = slash :: rest') /\
       (forall p : jsstring, projectId o env = Some p -> p <> [] -> trace <> [] ->
          buildTrace o env r =
            Normal (Some (js "projects/" ++ p ++ js "/traces/" ++ trace))) /\
       (truthy_text (projectId o env) = false \/ trace = [] ->
          buildTrace o env r = Normal None)) /\
    (projectId o env = Some (js "proj1") -> hdr = Some (js "abc123/1;o=1") ->
       buildTrace o env r = Normal (Some (js "projects/proj1/traces/abc123"))) /\
    (env !! js "GOOGLE_CLOUD_PROJECT" = None -> env !! js "GCLOUD_PROJECT" = None ->
     env !! projectIdEnvVar o = None -> buildTrace o env r = Normal None) /\
    (exists out, buildTrace o env r = Normal out).
Proof.
  intros Hnode.
  assert (Htext : exists hdr : option jsstring,
            headers r !! trace_header_name = HStr <$> hdr).
  { destruct (headers r !! trace_header_name) as [[h|l]|] eqn:Hl.
    - by exists (Some h).
    - apply Hnode in Hl. discriminate Hl.
    - by exists None. }
  destruct Htext as [hdr Hh]. exists hdr. split; [exact Hh |].
  pose proof (buildTrace_text o env r hdr Hh) as Hrun.
  split; [| split; [| split; [| split; [| split; [| split]]]]].
  - intros p Hp Hne. apply truthy_nonempty in Hne. unfold projectId.
    apply (text_or_l _ _ p); [| done]. by apply text_or_l.
  - intros p Hg Hp Hne. apply truthy_nonempty in Hne. unfold projectId.
    apply (text_or_l _ _ p); [| done]. rewrite text_or_r by done. done.
  - intros Hg Hc. unfold projectId. rewrite (text_or_r _ _ Hg).
    by rewrite text_or_r.
  - destruct (traceId_prefix (default [] hdr)) as (t & rest & Ht & Hd & Hnot & Hrest).
    exists t, rest. repeat split; try done.
    + intros p Hp Hne Htne. rewrite Hrun, Hp, Ht. simpl.
      apply truthy_nonempty in Hne. apply truthy_nonempty in Htne.
      by rewrite Hne, Htne.
    + intros [Hp | ->]; rewrite Hrun.
      * by rewrite Hp.
      * rewrite Ht. simpl. by rewrite andb_false_r.
  - intros Hp ->. rewrite Hrun, Hp. reflexivity.
  - intros Hg Hc Hv. rewrite Hrun. unfold projectId. by rewrite Hg, Hc, Hv.
  - rewrite Hrun. destruct (_ && _); by eexists.
Qed.

(** C10. An entry emitted by the error hook has no [durationMs], [query],
    [host] or [body] property, and its [httpRequest] object, which is there
    and holds the status, has no [referer], [protocol] or [latency]; an entry
    emitted by the completion callback has [durationMs], [query] and
    [httpRequest.latency], and has [host], [body], [referer] and [protocol]
    whenever the request supplies them. *)
Theorem error_entry_omits_request_fields o (err : Failure) (l : FinishListener) s :
  (forall e : Entry, e ∈ emitted s (error o err s).2 ->
     written "type" e = Some (VStr (js "error")) /\
     written "durationMs" e = None /\
     written "query" e = None /\
     written "host" e = None /\
     written "body" e = None /\
     written_in "httpRequest" "status" e = Some (VNum (statusCode (res s))) /\
     written_in "httpRequest" "referer" e = None /\
     written_in "httpRequest" "protocol" e = None /\
     written_in "httpRequest" "latency" e = None) /\
  (forall e : Entry, e ∈ emitted s (on_finish o l s).2 ->
     written "type" e = Some (VStr (js "request")) /\
     written "durationMs" e
       = Some (VNum (elapsed_ms (hrtime s (hrtime_reads s)) (started l))) /\
     written "query" e = Some (VOpaque (query (req s))) /\
     written "host" e = present (of_header (headers (req s) !! js "host")) /\
     (exists b, safeBody o (req s) = Normal b /\
                written "body" e = present (of_text b)) /\
     written_in "httpRequest" "referer" e
       = present (of_header (headers (req s) !! js "referer")) /\
     written_in "httpRequest" "protocol" e
       = present (of_text (toUpperCase <$> protocol (req s))) /\
     written_in "httpRequest" "latency" e
       = Some (VStr (seconds_text
            (Z.max (elapsed_ms (hrtime s (hrtime_reads s)) (started l)) 0)))).
Proof.
  split.
  - intros e He. rewrite error_emitted in He.
    destruct (getUserId o (req s));
      [destruct (buildTrace o (env s) (req s)) |];
      try by apply elem_of_nil in He.
    apply list_elem_of_singleton in He. subst e. by repeat split.
  - intros e He. rewrite on_finish_emitted in He.
    destruct (getUserId o (req s));
      [destruct (safeBody o (req s)) as [b|] eqn:Hb |];
      try by apply elem_of_nil in He.
    apply list_elem_of_singleton in He. subst e.
    repeat split. by exists b.
Qed.

(** A generated UUID is never the empty string. *)
Lemma uuid_text_truthy (x : N) : truthy (uuid_text x) = true.
Proof. unfold uuid_text. by destruct (hex 8 (N.shiftr x 96)). Qed.

(** The identifier that [v || crypto.randomUUID()] yields is truthy. *)
Lemma header_or_uuid_carries (v : option HeaderValue) (x : N) :
  carries (Some (header_or v (HStr (uuid_text x)))) = true.
Proof.
  destruct v as [w|]; unfold carries, header_or;
    [destruct (truthy_header w) eqn:Hw; [exact Hw |] |];
    exact (uuid_text_truthy x).
Qed.

Lemma present_of_header (v : HeaderValue) :
  present (of_header (Some v)) = Some (of_header (Some v)).
Proof. by destruct v. Qed.

(** C8, as amended. When the user-id extractor returns and the trace
    derivation does not raise, the error hook writes one entry on the error
    channel and nothing on the other, with severity "ERROR", with the
    failure's message when that is a non-empty text and "Unhandled error"
    when there is none or it is empty, with a stack property exactly when the
    failure has one, and hands on the very failure it received. *)
Theorem error_logged_and_forwarded o (err : Failure) s
    (u t : option jsstring) :
  getUserId o (req s) = Normal u ->
  buildTrace o (env s) (req s) = Normal t ->
  exists (e : Entry) (s' : State),
    error o err s = (Normal (NextWith err), s') /\
    console_error s' = console_error s ++ [e] /\
    console_log s' = console_log s /\
    written "severity" e = Some (VStr (js "ERROR")) /\
    (forall m : jsstring, message err = Some m -> m <> [] ->
       written "message" e = Some (VStr m)) /\
    (message err = None \/ message err = Some [] ->
       written "message" e = Some (VStr (js "Unhandled error"))) /\
    written "stack" e = VStr <$> stack err /\
    (is_Some (written "stack" e) <-> is_Some (stack err)).
Proof.
  intros Hu Ht. rewrite error_run, Hu, Ht. simpl.
  eexists _, _. split; [reflexivity |].
  assert (Hstack : forall a : option jsstring, present (of_text a) = VStr <$> a)
    by (by intros [a|]).
  split_and!.
  - by destruct (carries _).
  - by destruct (carries _).
  - reflexivity.
  - intros m Hm Hne. unfold written. simpl. unfold error_message.
    apply truthy_nonempty in Hne. by rewrite Hm, Hne.
  - intros [Hm | Hm]; unfold written; simpl; unfold error_message;
      by rewrite Hm.
  - apply Hstack.
  - unfold written. simpl. rewrite Hstack. apply fmap_is_Some.
Qed.

(** C9, as amended. An extractor that returns gives the entry its [userId]:
    the text it returned, or [null] when it returned [undefined]; the default
    extractor always returns [undefined]. An exception raised by the
    extractor is not caught by the logger: the completion callback and the
    error hook end with that exception and write no entry. *)
Theorem userId_extraction o (l : FinishListener) (err : Failure) s :
  (forall u : option jsstring, getUserId o (req s) = Normal u ->
     exists e : Entry,
       (on_finish o l s).1 = Normal tt /\
       emitted s (on_finish o l s).2 = [e] /\
       written "userId" e = Some (or_null u)) /\
  (forall u t : option jsstring, getUserId o (req s) = Normal u ->
     buildTrace o (env s) (req s) = Normal t ->
     exists e : Entry,
       (error o err s).1 = Normal (NextWith err) /\
       emitted s (error o err s).2 = [e] /\
       written "userId" e = Some (or_null u)) /\
  (forall (options : GcpLoggerOptions) r, opt_getUserId options = None ->
     getUserId (new_GcpLogger options) r = Normal None) /\
  (forall x : Exn, getUserId o (req s) = Throw x ->
     (on_finish o l s).1 = Throw x /\ emitted s (on_finish o l s).2 = [] /\
     (error o err s).1 = Throw x /\ emitted s (error o err s).2 = []).
Proof.
  split_and!.
  - intros u Hu. destruct (on_finish_returns o l s u Hu) as (b & Hb & Hrun).
    eexists. rewrite on_finish_emitted, Hrun, Hu, Hb.
    split_and!; [reflexivity | reflexivity |]. by destruct u.
  - intros u t Hu Ht. eexists. rewrite error_emitted, error_run, Hu, Ht.
    split_and!; [reflexivity | reflexivity |]. by destruct u.
  - intros options r Hnone. simpl. by rewrite Hnone.
  - intros x Hx. split_and!.
    + by rewrite on_finish_run, Hx.
    + by rewrite on_finish_emitted, Hx.
    + by rewrite error_run, Hx.
    + by rewrite error_emitted, Hx.
Qed.

Lemma request_stores_id o s :
  shouldSkip o (path (req s)) = false ->
  (request o s).2.(req).(requestId)
    = Some (header_or (headers (req s) !! request_id_header)
                      (HStr (uuid_text (entropy s (uuid_calls s))))) /\
  uuid_calls (request o s).2
    = (if carries (headers (req s) !! request_id_header)
       then uuid_calls s else S (uuid_calls s)) /\
  hrtime_reads (request o s).2 = S (hrtime_reads s).
Proof.
  intros Hskip. rewrite (request_run o s Hskip).
  destruct (buildTrace o (env s) (req s)); simpl;
    by destruct (carries _).
Qed.

(** C3, as amended. A request that is not skipped gets one identifier: the
    value of its x-request-id header when that header is present and not
    empty, and otherwise, the header being absent or empty, the text of one
    freshly generated UUID. [request] stores it on the request, and, when the
    trace derivation does not raise, registers one completion listener that
    holds it. The entry of that listener carries it; the error hook reuses
    the identifier stored on the request without generating another, and
    generates one only when none is stored. *)
Theorem requestId_assigned_once o s :
  shouldSkip o (path (req s)) = false ->
  let hv := headers (req s) !! request_id_header in
  let fresh := HStr (uuid_text (entropy s (uuid_calls s))) in
  let rid := header_or hv fresh in
  let s1 := (request o s).2 in
  (forall v : HeaderValue, hv = Some v -> truthy_header v = true ->
     rid = v /\ uuid_calls s1 = uuid_calls s) /\
  (hv = None \/ hv = Some (HStr []) ->
     rid = fresh /\ uuid_calls s1 = S (uuid_calls s)) /\
  requestId (req s1) = Some rid /\
  (forall t : option jsstring, buildTrace o (env s) (req s) = Normal t ->
     request o s = (Normal Next, s1) /\
     finish_listeners (res s1) =
       finish_listeners (res s) ++
       [{| started := hrtime s (hrtime_reads s);
           captured_requestId := rid; captured_trace := t |}]) /\
  (forall (l : FinishListener) (s2 : State) (u : option jsstring),
     captured_requestId l = rid -> getUserId o (req s2) = Normal u ->
     exists e : Entry,
       emitted s2 (on_finish o l s2).2 = [e] /\
       written "requestId" e = Some (of_header (Some rid))) /\
  (forall (err : Failure) (s2 : State) (u t : option jsstring),
     requestId (req s2) = Some rid -> getUserId o (req s2) = Normal u ->
     buildTrace o (env s2) (req s2) = Normal t ->
     exists e : Entry,
       emitted s2 (error o err s2).2 = [e] /\
       written "requestId" e = Some (of_header (Some rid)) /\
       uuid_calls (error o err s2).2 = uuid_calls s2) /\
  (forall (err : Failure) (s2 : State) (u t : option jsstring),
     requestId (req s2) = None -> getUserId o (req s2) = Normal u ->
     buildTrace o (env s2) (req s2) = Normal t ->
     exists e : Entry,
       emitted s2 (error o err s2).2 = [e] /\
       written "requestId" e
         = Some (VStr (uuid_text (entropy s2 (uuid_calls s2)))) /\
       uuid_calls (error o err s2).2 = S (uuid_calls s2)).
Proof.
  intros Hskip hv fresh rid s1.
  destruct (request_stores_id o s Hskip) as (Hid & Hcalls & _).
  fold hv in Hcalls. fold hv fresh rid s1 in Hid. fold s1 in Hcalls.
  split_and!.
  - intros v Hv Htruthy. subst rid. rewrite Hcalls, Hv. simpl.
    by rewrite Htruthy.
  - intros [Hv | Hv]; subst rid; rewrite Hcalls, Hv;
      split; reflexivity.
  - exact Hid.
  - intros t Ht. subst s1. rewrite (request_run o s Hskip), Ht. simpl.
    split; [reflexivity |]. by destruct (carries _).
  - intros l s2 u Hl Hu.
    destruct (on_finish_returns o l s2 u Hu) as (b & Hb & _).
    eexists. rewrite on_finish_emitted, Hu, Hb. split; [reflexivity |].
    unfold written. simpl. rewrite Hl. apply present_of_header.
  - intros err s2 u t Hstored Hu Ht.
    assert (Hc : carries (requestId (req s2)) = true).
    { rewrite Hstored. apply header_or_uuid_carries. }
    eexists. rewrite error_emitted, error_run, Hu, Ht, Hc. simpl.
    split_and!; [reflexivity | | reflexivity].
    unfold written. simpl. rewrite Hstored.
    replace (header_or (Some rid) _) with rid.
    + apply present_of_header.
    + rewrite Hstored in Hc. simpl in Hc. simpl. by rewrite Hc.
  - intros err s2 u t Hnone Hu Ht.
    eexists. rewrite error_emitted, error_run, Hu, Ht, Hnone. simpl.
    split_and!; reflexivity.
Qed.


End Properties.

(** * Further properties of the logger *)

Section Reach.
Context `{Platform}.

Implicit Types (o : Opts) (r : Request) (s : State) (k : jsstring).

(** ** Redaction *)

(** X1. [safeHeaders] neither drops nor adds a header: its result has
    exactly the names of [req.headers]. *)
Theorem safeHeaders_keeps_names o r :
  dom (safeHeaders o r) = dom (headers r) /\
  size (safeHeaders o r) = size (headers r).
Proof.
  assert (Hdom : dom (safeHeaders o r) = dom (headers r)).
  { apply set_eq. intros k.
    by rewrite !elem_of_dom, safeHeaders_lookup, fmap_is_Some. }
  split; [exact Hdom |].
  by rewrite <- !size_dom, Hdom.
Qed.

(** X2. Redacting twice is redacting once: a mapping that went through
    [safeHeaders] comes out of it unchanged. *)
Theorem safeHeaders_idempotent o r :
  safeHeaders o (with_headers (safeHeaders o r) r) = safeHeaders o r.
Proof.
  apply map_eq. intros k. rewrite safeHeaders_lookup. simpl.
  rewrite safeHeaders_lookup.
  destruct (headers r !! k) as [v|]; simpl; [| done].
  by destruct (masks o k).
Qed.

(** X3. An explicit empty list of names switches redaction off, the default
    names included: the constructor takes the defaults only when no list is
    given, and with no name to match [safeHeaders] returns the headers as
    they are. *)
Theorem empty_redaction_list_masks_nothing (options : GcpLoggerOptions) r :
  opt_redactHeaders options = Some [] ->
  safeHeaders (new_GcpLogger options) r = headers r.
Proof.
  intros Hnone. apply map_eq. intros k. rewrite safeHeaders_lookup.
  unfold masks. simpl. rewrite Hnone. simpl.
  by destruct (headers r !! k).
Qed.

(** ** Skipped paths *)

(** X4. With no [skipPaths] option the logger skips the three paths
    "/healthz", "/metrics" and "/favicon.ico" and no other, a longer or
    differently cased path included; with an empty list it skips nothing. *)
Theorem default_skipPaths_exact (options : GcpLoggerOptions) (p : jsstring) :
  (opt_skipPaths options = None ->
     (shouldSkip (new_GcpLogger options) p = true <->
      p = js "/healthz" \/ p = js "/metrics" \/ p = js "/favicon.ico")) /\
  (opt_skipPaths options = Some [] ->
     shouldSkip (new_GcpLogger options) p = false).
Proof.
  split; intros Hopt.
  - assert (Hrun : shouldSkip (new_GcpLogger options) p =
                   str_eqb p (js "/healthz") ||
                   (str_eqb p (js "/metrics") ||
                    (str_eqb p (js "/favicon.ico") || false))).
    { unfold shouldSkip, new_GcpLogger. cbn [skipPaths]. rewrite Hopt.
      reflexivity. }
    rewrite Hrun, !orb_true_iff, !str_eqb_eq. intuition discriminate.
  - unfold shouldSkip, new_GcpLogger. cbn [skipPaths]. rewrite Hopt.
    reflexivity.
Qed.

(** ** Body capture *)

(** X5. A captured body is never the empty string, and for a cap that is a
    length it is at most [maxBodyLength] code units plus the twelve of the
    truncation marker, or the 21 code units of "[unserializable body]". *)
Theorem safeBody_bounded o r (out : jsstring) :
  safeBody o r = Normal (Some out) ->
  out <> [] /\
  ((0 <= maxBodyLength o)%Z ->
   (Z.of_nat (length out) <= Z.max (maxBodyLength o + 12) 21)%Z).
Proof.
  unfold safeBody. destruct (captureBody o); simpl; [| discriminate].
  destruct (raw_body r) as [[raw|]|e]; simpl; try discriminate.
  - destruct (truthy raw) eqn:Hraw; simpl; [| discriminate].
    destruct (Z.gtb_spec (Z.of_nat (length raw)) (maxBodyLength o)) as [Hlong|Hshort];
      intros [= <-].
    + split.
      * intros Heq. apply app_eq_nil in Heq as [_ Hmark]. discriminate Hmark.
      * intros Hcap. rewrite slice0_take by lia.
        rewrite length_app, length_take. simpl. lia.
    + split; [by apply truthy_nonempty | lia].
  - intros [= <-]. split; [discriminate | simpl; lia].
Qed.

(** ** Trace derivation *)

Lemma traceId_truthy (h : jsstring) :
  truthy_text (traceId h) = true <->
  exists (c : N) (rest : jsstring), h = c :: rest /\ c <> slash.
Proof.
  unfold traceId. destruct h as [|c rest]; simpl.
  - split; [discriminate | intros (c & rest & Hh & _); discriminate Hh].
  - destruct (N.eqb_spec c slash) as [-> | Hne]; simpl.
    + split; [discriminate | intros (c & rest' & [= <- _] & Hc); done].
    + destruct (split slash rest); simpl; (split; [| done]); intros _;
        by exists c, rest.
Qed.

(** X6. For a header that is absent or a string, [buildTrace] returns a
    trace exactly when the project resolves to a non-empty text and the
    header is not empty and does not begin with "/"; and the trace it then
    returns is "projects/", the project, "/traces/" and a non-empty piece of
    the header that holds no "/". *)
Theorem buildTrace_some_iff o (env : gmap jsstring jsstring) r
    (hdr : option jsstring) :
  headers r !! trace_header_name = HStr <$> hdr ->
  ((exists t : jsstring, buildTrace o env r = Normal (Some t)) <->
   truthy_text (projectId o env) = true /\
   exists (c : N) (rest : jsstring), hdr = Some (c :: rest) /\ c <> slash) /\
  (forall t : jsstring, buildTrace o env r = Normal (Some t) ->
     exists p id more : jsstring,
       projectId o env = Some p /\ p <> [] /\
       default [] hdr = id ++ more /\ id <> [] /\ (slash ∉ id) /\
       t = js "projects/" ++ p ++ js "/traces/" ++ id).
Proof.
  intros Hh. rewrite (buildTrace_text o env r hdr Hh).
  assert (Hhdr : truthy_text (traceId (default [] hdr)) = true <->
                 exists (c : N) (rest : jsstring),
                   hdr = Some (c :: rest) /\ c <> slash).
  { rewrite traceId_truthy. destruct hdr as [h|]; simpl.
    - split; intros (c & rest & Hc & Hne); exists c, rest; (split; [| done]).
      + by rewrite Hc.
      + by injection Hc.
    - split; intros (c & rest & Hc & _); discriminate Hc. }
  split.
  - rewrite <- Hhdr.
    destruct (truthy_text (projectId o env)); simpl.
    + destruct (truthy_text (traceId (default [] hdr))); split;
        try (intros (t & Ht); discriminate Ht); try (by intros [_ ?]);
        try (intros _; by eexists); done.
    + split; [intros (t & Ht); discriminate Ht | by intros [? _]].
  - intros t.
    destruct (traceId_prefix (default [] hdr))
      as (id & more & Hid & Hsplit & Hnot & _).
    rewrite Hid. destruct (projectId o env) as [p|]; simpl; [| discriminate].
    destruct (truthy p) eqn:Hp; simpl; [| discriminate].
    destruct (truthy id) eqn:Hi; simpl; [| discriminate].
    intros [= <-]. exists p, id, more.
    split_and!; try done; by apply truthy_nonempty.
Qed.

(** ** What follows the first "/" of the trace header *)

Lemma traceId_ignores_rest (id rest : jsstring) :
  traceId (id ++ slash :: rest) = traceId id.
Proof.
  unfold traceId. induction id as [|c id IH]; simpl.
  - reflexivity.
  - destruct (N.eqb c slash); [reflexivity |].
    destruct (split slash (id ++ slash :: rest)) as [|p ps] eqn:Hl,
             (split slash id) as [|q qs] eqn:Hr; simpl in *; congruence.
Qed.

(** X14. Only the part of the x-cloud-trace-context header before its first
    "/" matters: a request whose header is some text followed by "/" and
    anything (a span identifier, options) gets the trace of a request whose
    header is that text alone. *)
Theorem buildTrace_ignores_span o (env : gmap jsstring jsstring) r r'
    (id rest : jsstring) :
  headers r !! trace_header_name = Some (HStr (id ++ slash :: rest)) ->
  headers r' !! trace_header_name = Some (HStr id) ->
  buildTrace o env r = buildTrace o env r'.
Proof.
  intros Hr Hr'.
  rewrite (buildTrace_text o env r (Some (id ++ slash :: rest)) Hr).
  rewrite (buildTrace_text o env r' (Some id) Hr').
  simpl. by rewrite traceId_ignores_rest.
Qed.

(** ** What [request] touches *)

(** X7. On a path that is not skipped, [request] writes nothing on either
    console channel, reads the clock once, leaves the environment, the
    response status and every property of the request but [requestId] as
    they were. If the trace derivation raises, the middleware ends with that
    exception after the identifier was stored, and any UUID drawn, but
    before a completion listener is registered: nothing will be logged for
    the request. *)
Theorem request_frame o s :
  shouldSkip o (path (req s)) = false ->
  console_log (request o s).2 = console_log s /\
  console_error (request o s).2 = console_error s /\
  env (request o s).2 = env s /\
  hrtime_reads (request o s).2 = S (hrtime_reads s) /\
  statusCode (res (request o s).2) = statusCode (res s) /\
  (exists rid : HeaderValue,
     req (request o s).2 = set_requestId_field rid (req s)) /\
  (forall e : Exn, buildTrace o (env s) (req s) = Throw e ->
     (request o s).1 = Throw e /\
     finish_listeners (res (request o s).2) = finish_listeners (res s) /\
     is_Some (requestId (req (request o s).2))).
Proof.
  intros Hskip. rewrite (request_run o s Hskip).
  destruct (buildTrace o (env s) (req s)) as [t|e] eqn:Ht; simpl;
    split_and!; try (by destruct (carries _));
    try (eexists; by destruct (carries _)).
  intros e' [= <-]. split_and!; try done. by destruct (carries _).
Qed.

(** ** From the first middleware entry to the completed response *)

Lemma emit_finish_single o (l : FinishListener) s :
  finish_listeners (res s) = [l] ->
  emit_finish o s =
  match on_finish o l s with
  | (Normal _, s') => (Normal tt, s')
  | (Throw e, s') => (Throw e, s')
  end.
Proof.
  intros Hl. unfold emit_finish, mbind, M_bind, gets. rewrite Hl. simpl.
  unfold mbind, M_bind. by destruct (on_finish o l s) as [[[]|e] s'].
Qed.

Lemma safeHeaders_same_headers o r r' :
  headers r' = headers r -> safeHeaders o r' = safeHeaders o r.
Proof. unfold safeHeaders. by intros ->. Qed.

(** X8. A request on a path that is not skipped, on a response without
    other listeners, whose trace derivation returns and whose user-id
    extractor returns on the request once the identifier is stored, is
    logged exactly once: when the response completes there is one new entry
    on the informational channel and none on the error channel, the clock
    was read twice, and the entry holds the truncated millisecond difference
    of the two readings, the trace derived when the request came in, the
    identifier assigned then, the extractor's answer and the redacted
    headers. *)
Theorem lifecycle_logs_once o s (t u : option jsstring) :
  shouldSkip o (path (req s)) = false ->
  finish_listeners (res s) = [] ->
  buildTrace o (env s) (req s) = Normal t ->
  getUserId o
    (set_requestId_field
       (header_or (headers (req s) !! request_id_header)
                  (HStr (uuid_text (entropy s (uuid_calls s)))))
       (req s)) = Normal u ->
  exists (e : Entry) (s' : State),
    lifecycle o s = (Normal tt, s') /\
    console_log s' = console_log s ++ [e] /\
    console_error s' = console_error s /\
    hrtime_reads s' = S (S (hrtime_reads s)) /\
    written "durationMs" e
      = Some (VNum (Z.quot (hrtime s (S (hrtime_reads s))
                            - hrtime s (hrtime_reads s)) 1000000)) /\
    written "trace" e = VStr <$> t /\
    written "requestId" e
      = Some (of_header
                (Some (header_or (headers (req s) !! request_id_header)
                                 (HStr (uuid_text (entropy s (uuid_calls s))))))) /\
    written "userId" e = Some (or_null u) /\
    written "headers" e = Some (VHeaders (safeHeaders o (req s))).
Proof.
  intros Hskip Hnone Ht Hu.
  set (rid := header_or (headers (req s) !! request_id_header)
                        (HStr (uuid_text (entropy s (uuid_calls s))))) in *.
  set (l := {| started := hrtime s (hrtime_reads s);
               captured_requestId := rid; captured_trace := t |}).
  set (s1 := with_listener l (identified s)).
  assert (Hrun : request o s = (Normal Next, s1))
    by (by rewrite (request_run o s Hskip), Ht).
  assert (Hreq : req s1 = set_requestId_field rid (req s))
    by (unfold s1, identified; simpl; by destruct (carries _)).
  assert (Hres : finish_listeners (res s1) = [l])
    by (unfold s1, identified; simpl; destruct (carries _); simpl;
        by rewrite Hnone).
  assert (Hclock : hrtime s1 = hrtime s /\ hrtime_reads s1 = S (hrtime_reads s))
    by (unfold s1, identified; simpl; by destruct (carries _)).
  assert (Hout : console_log s1 = console_log s /\
                 console_error s1 = console_error s)
    by (unfold s1, identified; simpl; by destruct (carries _)).
  destruct Hclock as [Hclock Hreads]. destruct Hout as [Hlog Herr].
  destruct (safeBody_returns o (req s1)) as [b Hb].
  assert (Hfin : on_finish o l s1 =
            (Normal tt,
             with_log (request_entry o (req s1) (res s1) l
                         (elapsed_ms (hrtime s1 (hrtime_reads s1)) (started l))
                         u b) (tick s1)))
    by (by rewrite on_finish_run, Hreq, Hu, <- Hreq, Hb).
  clearbody s1.
  eexists _, _. split.
  { unfold lifecycle, mbind, M_bind. rewrite Hrun.
    rewrite (emit_finish_single o l s1 Hres), Hfin. reflexivity. }
  cbn [with_log tick console_log console_error hrtime_reads].
  rewrite Hlog, Herr, Hreads, Hclock.
  split_and!; try reflexivity.
  - by destruct t.
  - apply present_of_header.
  - by destruct u.
  - unfold written. simpl. f_equal. f_equal.
    apply safeHeaders_same_headers. by rewrite Hreq.
Qed.

(** X9. The completion entry always goes to the informational channel and
    never to the error channel, also when the final status makes its
    severity "ERROR"; it carries the status the response has at completion,
    the message "HTTP request" and the trace captured when the request came
    in. *)
Theorem completion_entry_channel o (l : FinishListener) s (u : option jsstring) :
  getUserId o (req s) = Normal u ->
  exists e : Entry,
    console_log (on_finish o l s).2 = console_log s ++ [e] /\
    console_error (on_finish o l s).2 = console_error s /\
    written "severity" e
      = Some (VStr (severity_text (statusToSeverity (statusCode (res s))))) /\
    ((500 <= statusCode (res s))%Z ->
       written "severity" e = Some (VStr (js "ERROR"))) /\
    written "message" e = Some (VStr (js "HTTP request")) /\
    written_in "httpRequest" "status" e = Some (VNum (statusCode (res s))) /\
    written "trace" e = VStr <$> captured_trace l.
Proof.
  intros Hu. destruct (on_finish_returns o l s u Hu) as (b & Hb & Hrun).
  eexists. rewrite Hrun. simpl. split_and!; try reflexivity.
  - intros Hhigh. unfold written. simpl. unfold statusToSeverity.
    destruct (Z.geb_spec (statusCode (res s)) 500); [reflexivity | lia].
  - by destruct l as [t0 rid [tr|]].
Qed.

(** X10. For a clock that did not run backwards between the two readings,
    [durationMs] is the elapsed time in whole milliseconds, rounded down,
    and [httpRequest.latency] is rendered from that same number. *)
Theorem durationMs_rounds_down o (l : FinishListener) s (u : option jsstring) :
  getUserId o (req s) = Normal u ->
  (started l <= hrtime s (hrtime_reads s))%Z ->
  exists (e : Entry) (d : Z),
    emitted s (on_finish o l s).2 = [e] /\
    written "durationMs" e = Some (VNum d) /\
    (1000000 * d <= hrtime s (hrtime_reads s) - started l
       < 1000000 * (d + 1))%Z /\
    written_in "httpRequest" "latency" e = Some (VStr (seconds_text d)).
Proof.
  intros Hu Hmono. destruct (on_finish_returns o l s u Hu) as (b & Hb & _).
  eexists _, (elapsed_ms (hrtime s (hrtime_reads s)) (started l)).
  rewrite on_finish_emitted, Hu, Hb. unfold elapsed_ms.
  set (elapsed := (hrtime s (hrtime_reads s) - started l)%Z).
  assert (Hpos : (0 <= elapsed)%Z) by (unfold elapsed; lia).
  assert (Hq : (0 <= Z.quot elapsed 1000000)%Z) by (apply Z.quot_pos; lia).
  split_and!; try reflexivity.
  - rewrite Z.quot_div_nonneg by lia.
    apply Z.mul_div_le. lia.
  - rewrite Z.quot_div_nonneg by lia.
    pose proof (Z.mul_succ_div_gt elapsed 1000000). lia.
  - unfold written_in, written. simpl. by rewrite Z.max_l.
Qed.

(** ** The error hook *)

(** X11. The error hook does not consult [skipPaths]: for a failure on a
    skipped path, where [request] did nothing and stored no identifier, it
    still writes its entry on the error channel, under an identifier it
    generates, and hands the failure on. *)
Theorem error_ignores_skipPaths o (err : Failure) s (u t : option jsstring) :
  shouldSkip o (path (req s)) = true ->
  requestId (req s) = None ->
  getUserId o (req s) = Normal u ->
  buildTrace o (env s) (req s) = Normal t ->
  exists (e : Entry) (s' : State),
    (request o;; error o err) s = (Normal (NextWith err), s') /\
    console_error s' = console_error s ++ [e] /\
    console_log s' = console_log s /\
    uuid_calls s' = S (uuid_calls s) /\
    written "type" e = Some (VStr (js "error")) /\
    written "path" e = Some (VStr (path (req s))) /\
    written "requestId" e
      = Some (VStr (uuid_text (entropy s (uuid_calls s)))).
Proof.
  intros Hskip Hnone Hu Ht. eexists _, _. split.
  { unfold mbind at 1. unfold M_bind. rewrite (request_skipped o s Hskip).
    rewrite error_run, Hu, Ht, Hnone. reflexivity. }
  by split_and!.
Qed.

(** X12. The error hook changes nothing but the error channel and the UUID
    count: request, response, clock and informational channel stay as they
    were, whether it returns or raises. In particular it does not store the
    identifier it generates, so that two runs of the hook on a request
    without a stored identifier log two separately generated ones. *)
Theorem error_stores_nothing o (err : Failure) s :
  req (error o err s).2 = req s /\
  res (error o err s).2 = res s /\
  hrtime_reads (error o err s).2 = hrtime_reads s /\
  console_log (error o err s).2 = console_log s /\
  (requestId (req s) = None ->
   forall u t : option jsstring,
     getUserId o (req s) = Normal u ->
     buildTrace o (env s) (req s) = Normal t ->
     exists (e1 e2 : Entry) (s' : State),
       (error o err;; error o err) s = (Normal (NextWith err), s') /\
       console_error s' = console_error s ++ [e1; e2] /\
       written "requestId" e1
         = Some (VStr (uuid_text (entropy s (uuid_calls s)))) /\
       written "requestId" e2
         = Some (VStr (uuid_text (entropy s (S (uuid_calls s)))))).
Proof.
  split_and!.
  1-4: rewrite error_run; simpl;
       destruct (getUserId o (req s));
         [destruct (buildTrace o (env s) (req s)) |];
       simpl; by destruct (carries _).
  intros Hnone u t Hu Ht. eexists _, _, _. split.
  { unfold mbind at 1. unfold M_bind.
    rewrite (error_run o err s), Hu, Ht, Hnone. simpl.
    rewrite error_run. simpl. rewrite Hu, Ht, Hnone. reflexivity. }
  simpl. split_and!; [by rewrite <- app_assoc | reflexivity | reflexivity].
Qed.

(** ** The logger of the application *)

(** X13. The logger the application installs, built without options, never
    raises in its completion callback and always writes its entry; that
    entry has no [body], whatever the request carries, and a [userId] of
    [null]; and the headers it masks are those whose lower-cased name is the
    lower-cased "authorization" or "cookie". *)
Theorem app_logger_defaults (l : FinishListener) s k :
  (exists e : Entry,
     on_finish app_logger l s = (Normal tt, with_log e (tick s)) /\
     written "body" e = None /\
     written "userId" e = Some VNull) /\
  (masks app_logger k = true <->
   toLowerCase k = toLowerCase (js "authorization") \/
   toLowerCase k = toLowerCase (js "cookie")).
Proof.
  split.
  - eexists. rewrite on_finish_run. split_and!; reflexivity.
  - unfold app_logger. rewrite masks_constructed. simpl. split.
    + intros (h & Hin & Heq).
      apply elem_of_cons in Hin as [-> | Hin]; [by left |].
      apply list_elem_of_singleton in Hin as ->. by right.
    + intros [Heq | Heq]; eexists; (split; [| symmetry; exact Heq]).
      * apply list_elem_of_here.
      * apply list_elem_of_further, list_elem_of_here.
Qed.

End Reach.

(** * The claims on the sample inputs *)

#[local] Existing Instance sample_platform.

Lemma statusToSeverity_classifies_witness :
  severity_text (statusToSeverity 503) = js "ERROR" /\
  severity_text (statusToSeverity 404) = js "WARNING" /\
  severity_text (statusToSeverity 204) = js "INFO".
Proof.
  destruct (statusToSeverity_classifies 503) as (He & _ & _).
  destruct (statusToSeverity_classifies 404) as (_ & Hw & _).
  destruct (statusToSeverity_classifies 204) as (_ & _ & Hi).
  split_and!; [apply He | apply Hw | apply Hi]; lia.
Defined.

Lemma headers_redacted_witness :
  safeHeaders sample_logger sample_request !! js "x-api-key"
    = Some (HStr (js "[REDACTED]")) /\
  safeHeaders sample_logger sample_request !! js "set-cookie"
    = Some (HArr [js "a=1"; js "b=2"]) /\
  (exists e : Entry,
     e ∈ emitted sample_state
           (on_finish sample_logger (sample_listener 0) sample_state).2 /\
     written "headers" e
       = Some (VHeaders (safeHeaders sample_logger sample_request))) /\
  (exists e : Entry,
     e ∈ emitted sample_state (error sample_logger boom sample_state).2 /\
     written "headers" e
       = Some (VHeaders (safeHeaders sample_logger sample_request))).
Proof.
  destruct (headers_redacted (options_with None) sample_request (js "x-api-key"))
    as (Hmask & _ & Hfin & Herr).
  destruct (headers_redacted (options_with None) sample_request (js "set-cookie"))
    as (_ & Hpass & _ & _).
  unfold sample_logger. split_and!.
  - rewrite Hmask; [reflexivity |].
    exists (js "X-Api-Key"). split; [| reflexivity].
    apply list_elem_of_singleton. reflexivity.
  - rewrite Hpass; [reflexivity |].
    intros h Hh. apply list_elem_of_singleton in Hh. subst h. discriminate.
  - exists (request_entry sample_logger sample_request (res sample_state)
              (sample_listener 0) 1 None
              (Some (js "abcdefghij" ++ ellipsis :: js "[truncated]"))).
    assert (Hin : request_entry sample_logger sample_request (res sample_state)
                    (sample_listener 0) 1 None
                    (Some (js "abcdefghij" ++ ellipsis :: js "[truncated]"))
                  ∈ emitted sample_state
                      (on_finish sample_logger (sample_listener 0) sample_state).2).
    { rewrite on_finish_emitted. apply list_elem_of_here. }
    split; [exact Hin |].
    apply (Hfin sample_state (sample_listener 0)); [reflexivity | exact Hin].
  - exists (error_entry sample_logger boom sample_request (res sample_state)
              (HStr (uuid_text 0)) None
              (Some (js "projects/proj1/traces/abc123"))).
    assert (Hin : error_entry sample_logger boom sample_request (res sample_state)
                    (HStr (uuid_text 0)) None
                    (Some (js "projects/proj1/traces/abc123"))
                  ∈ emitted sample_state (error sample_logger boom sample_state).2).
    { rewrite error_emitted. apply list_elem_of_here. }
    split; [exact Hin |].
    apply (Herr sample_state boom); [reflexivity | exact Hin].
Defined.



Lemma safeBody_captures_witness :
  safeBody sample_logger sample_request
    = Normal (Some (js "abcdefghij" ++ ellipsis :: js "[truncated]")) /\
  safeBody sample_logger
      (request_carrying bigint_body)
    = Normal (Some (js "[unserializable body]")) /\
  safeBody sample_logger
      (request_carrying (BodyString (js "")))
    = Normal None /\
  safeBody sample_logger
      (request_carrying empty_object_body)
    = Normal (Some (js "{}")) /\
  safeBody (new_GcpLogger no_options) sample_request = Normal None.
Proof.
  split_and!.
  - destruct (safeBody_captures sample_logger sample_request)
      as (_ & _ & _ & _ & Hon).
    destruct (Hon eq_refl) as (_ & _ & _ & Hex). by apply Hex.
  - destruct (safeBody_captures sample_logger
        (request_carrying bigint_body))
      as (_ & _ & _ & _ & Hon).
    destruct (Hon eq_refl) as (Hthrow & _). by eapply Hthrow.
  - destruct (safeBody_captures sample_logger
        (request_carrying (BodyString (js ""))))
      as (_ & _ & _ & _ & Hon).
    destruct (Hon eq_refl) as (_ & Hempty & _). by apply Hempty.
  - destruct (safeBody_captures sample_logger
        (request_carrying empty_object_body))
      as (_ & _ & _ & _ & Hon).
    destruct (Hon eq_refl) as (_ & _ & Hraw & _).
    destruct (Hraw (js "{}") eq_refl) as (_ & _ & Hshort); [discriminate |].
    apply Hshort. simpl. lia.
  - destruct (safeBody_captures (new_GcpLogger no_options) sample_request)
      as (Hoff & _).
    by apply Hoff.
Defined.

Lemma node_headers_singleton (k v : jsstring) :
  node_headers {[ k := HStr v ]}.
Proof.
  intros k' l Hl. apply lookup_singleton_Some in Hl as [_ Hl]. discriminate Hl.
Qed.

Lemma buildTrace_derives_witness :
  node_headers (headers (traced_request "abc123/1;o=1")) /\
  buildTrace sample_logger (env sample_state) (traced_request "abc123/1;o=1")
    = Normal (Some (js "projects/proj1/traces/abc123")) /\
  buildTrace sample_logger ∅ (traced_request "abc123/1;o=1") = Normal None /\
  exists out : option jsstring,
    buildTrace sample_logger (env sample_state) (traced_request "no slash here")
      = Normal out.
Proof.
  split; [apply node_headers_singleton |]. split_and!.
  - destruct (buildTrace_derives sample_logger (env sample_state)
                (traced_request "abc123/1;o=1") (node_headers_singleton _ _))
      as (hdr & Hh & _ & _ & _ & _ & Hex & _).
    apply Hex; [reflexivity |].
    assert (Hl : headers (traced_request "abc123/1;o=1") !! trace_header_name
                 = Some (HStr (js "abc123/1;o=1")))
      by apply lookup_singleton_eq.
    rewrite Hl in Hh. destruct hdr as [h|]; [| discriminate Hh].
    by injection Hh as <-.
  - destruct (buildTrace_derives sample_logger ∅
                (traced_request "abc123/1;o=1") (node_headers_singleton _ _))
      as (hdr & _ & _ & _ & _ & _ & _ & Hnone & _).
    by apply Hnone.
  - destruct (buildTrace_derives sample_logger (env sample_state)
                (traced_request "no slash here") (node_headers_singleton _ _))
      as (hdr & _ & _ & _ & _ & _ & _ & _ & Hout).
    exact Hout.
Defined.

Lemma error_entry_omits_request_fields_witness :
  (exists e : Entry,
     emitted sample_state (error sample_logger boom sample_state).2 = [e] /\
     written "durationMs" e = None /\ written "query" e = None /\
     written "host" e = None /\ written "body" e = None /\
     written_in "httpRequest" "latency" e = None) /\
  (exists e : Entry,
     emitted sample_state
       (on_finish sample_logger (sample_listener 1000000) sample_state).2 = [e] /\
     written "durationMs" e = Some (VNum 0) /\
     written "host" e = Some (VStr (js "example.com")) /\
     written_in "httpRequest" "protocol" e = Some (VStr (js "HTTPS"))).
Proof.
  destruct (error_entry_omits_request_fields sample_logger boom
              (sample_listener 1000000) sample_state) as (Herr & Hfin).
  split.
  - exists (error_entry sample_logger boom sample_request (res sample_state)
              (HStr (uuid_text 0)) None
              (Some (js "projects/proj1/traces/abc123"))).
    assert (Hrun : emitted sample_state (error sample_logger boom sample_state).2
                   = [error_entry sample_logger boom sample_request
                        (res sample_state) (HStr (uuid_text 0)) None
                        (Some (js "projects/proj1/traces/abc123"))]).
    { rewrite error_emitted. reflexivity. }
    split; [exact Hrun |].
    edestruct Herr as (_ & Hd & Hq & Hh & Hb & _ & _ & _ & Hl);
      [rewrite Hrun; apply list_elem_of_here |].
    split_and!; [exact Hd | exact Hq | exact Hh | exact Hb | exact Hl].
  - exists (request_entry sample_logger sample_request (res sample_state)
              (sample_listener 1000000) 0 None
              (Some (js "abcdefghij" ++ ellipsis :: js "[truncated]"))).
    assert (Hrun : emitted sample_state
                     (on_finish sample_logger (sample_listener 1000000)
                                sample_state).2
                   = [request_entry sample_logger sample_request
                        (res sample_state) (sample_listener 1000000) 0 None
                        (Some (js "abcdefghij" ++ ellipsis :: js "[truncated]"))]).
    { rewrite on_finish_emitted. reflexivity. }
    split; [exact Hrun |].
    edestruct Hfin as (_ & Hd & _ & Hh & _ & _ & Hp & _);
      [rewrite Hrun; apply list_elem_of_here |].
    split_and!; [exact Hd | exact Hh | exact Hp].
Defined.

Lemma requestId_assigned_once_witness :
  requestId (req admitted_state) = Some (HStr (js "req-42")) /\
  uuid_calls admitted_state = 0 /\
  finish_listeners (res admitted_state) = [sample_listener 1000000] /\
  (exists e : Entry,
     emitted admitted_state
       (on_finish sample_logger (sample_listener 1000000) admitted_state).2 = [e] /\
     written "requestId" e = Some (VStr (js "req-42"))) /\
  (exists e : Entry,
     emitted admitted_state (error sample_logger boom admitted_state).2 = [e] /\
     written "requestId" e = Some (VStr (js "req-42")) /\
     uuid_calls (error sample_logger boom admitted_state).2 = 0) /\
  requestId (req (request sample_logger bare_state).2)
    = Some (HStr (js "00000000-0000-4000-8000-000000000000")) /\
  uuid_calls (request sample_logger bare_state).2 = 1.
Proof.
  pose proof (requestId_assigned_once sample_logger sample_state eq_refl) as Hw.
  cbv zeta in Hw.
  destruct Hw as (Hgiven & _ & Hstored & Hlisten & Hfinish & Hreuse & _).
  destruct (Hgiven (HStr (js "req-42")) eq_refl eq_refl) as (Hrid & Hcalls).
  fold admitted_state in Hcalls, Hstored, Hlisten.
  rewrite Hrid in Hstored, Hlisten, Hfinish, Hreuse.
  pose proof (requestId_assigned_once sample_logger bare_state eq_refl) as Hb.
  cbv zeta in Hb. destruct Hb as (_ & Hfresh & Hbare & _).
  destruct (Hfresh (or_introl (lookup_empty _))) as (Hnew & Hone).
  rewrite Hnew in Hbare.
  split_and!.
  - exact Hstored.
  - exact Hcalls.
  - apply (Hlisten (Some (js "projects/proj1/traces/abc123"))). reflexivity.
  - apply (Hfinish (sample_listener 1000000) admitted_state None);
      reflexivity.
  - apply (Hreuse boom admitted_state None
             (Some (js "projects/proj1/traces/abc123")));
      [exact Hstored | reflexivity | reflexivity].
  - exact Hbare.
  - exact Hone.
Defined.

(** C3 as stated fails on a header that is present and empty: the entry
    carries a generated UUID, not the header's value. *)
Lemma requestId_empty_header_counterexample :
  shouldSkip sample_logger (path (req empty_id_state)) = false /\
  headers (req empty_id_state) !! request_id_header = Some (HStr []) /\
  written "requestId" <$>
    head (console_log
            ((request sample_logger;; emit_finish sample_logger) empty_id_state).2)
    = Some (Some (VStr (js "00000000-0000-4000-8000-000000000000"))) /\
  written "requestId" <$>
    head (console_log
            ((request sample_logger;; emit_finish sample_logger) empty_id_state).2)
    <> Some (Some (VStr [])).
Proof.
  assert (Hrun : written "requestId" <$>
            head (console_log
              ((request sample_logger;; emit_finish sample_logger)
                 empty_id_state).2)
            = Some (Some (VStr (js "00000000-0000-4000-8000-000000000000"))))
    by (vm_compute; reflexivity).
  split_and!; [reflexivity | reflexivity | exact Hrun |].
  rewrite Hrun. discriminate.
Qed.



Lemma error_logged_and_forwarded_witness :
  exists (e : Entry) (s' : State),
    error sample_logger boom sample_state = (Normal (NextWith boom), s') /\
    console_error s' = [e] /\
    written "severity" e = Some (VStr (js "ERROR")) /\
    written "message" e = Some (VStr (js "boom")) /\
    written "stack" e = None.
Proof.
  destruct (error_logged_and_forwarded sample_logger boom sample_state None
              (Some (js "projects/proj1/traces/abc123")) eq_refl eq_refl)
    as (e & s' & Hrun & Herr & _ & Hsev & Hmsg & _ & Hstack & _).
  exists e, s'.
  split_and!; [exact Hrun | exact Herr | exact Hsev | | exact Hstack].
  apply (Hmsg (js "boom")); [reflexivity | discriminate].
Defined.

(** C8 as stated fails when the user-id extractor raises: the hook ends with
    the extractor's exception, writes nothing and never reaches [next(err)]. *)
Lemma error_not_forwarded_counterexample :
  getUserId throwing_logger (req sample_state) = Throw (Thrown (js "no session")) /\
  (error throwing_logger boom sample_state).1 = Throw (Thrown (js "no session")) /\
  emitted sample_state (error throwing_logger boom sample_state).2 = [] /\
  ~ (exists s' : State,
       error throwing_logger boom sample_state = (Normal (NextWith boom), s')).
Proof.
  split_and!.
  - reflexivity.
  - rewrite error_run. reflexivity.
  - rewrite error_emitted. reflexivity.
  - intros (s' & Hs'). rewrite error_run in Hs'. discriminate Hs'.
Qed.

Lemma userId_extraction_witness :
  (exists e : Entry,
     (on_finish identifying_logger (sample_listener 0) sample_state).1 = Normal tt /\
     emitted sample_state
       (on_finish identifying_logger (sample_listener 0) sample_state).2 = [e] /\
     written "userId" e = Some (VStr (js "u-7"))) /\
  (exists e : Entry,
     (error sample_logger boom sample_state).1 = Normal (NextWith boom) /\
     emitted sample_state (error sample_logger boom sample_state).2 = [e] /\
     written "userId" e = Some VNull) /\
  getUserId (new_GcpLogger no_options) sample_request = Normal None /\
  (on_finish throwing_logger (sample_listener 0) sample_state).1
    = Throw (Thrown (js "no session")) /\
  emitted sample_state
    (on_finish throwing_logger (sample_listener 0) sample_state).2 = [].
Proof.
  destruct (userId_extraction identifying_logger (sample_listener 0) boom
              sample_state) as (Hfin & _ & _ & _).
  destruct (userId_extraction sample_logger (sample_listener 0) boom
              sample_state) as (_ & Herr & Hdefault & _).
  destruct (userId_extraction throwing_logger (sample_listener 0) boom
              sample_state) as (_ & _ & _ & Hthrow).
  destruct (Hthrow (Thrown (js "no session")) eq_refl) as (Hf & Hnone & _ & _).
  split_and!.
  - apply (Hfin (Some (js "u-7"))). reflexivity.
  - apply (Herr None (Some (js "projects/proj1/traces/abc123")));
      reflexivity.
  - apply (Hdefault no_options sample_request). reflexivity.
  - exact Hf.
  - exact Hnone.
Defined.

(** C9 as stated fails when the extractor raises: the completion callback
    ends with the exception and the entry is never written, on the callback
    alone and over the whole life of the request. *)
Lemma extractor_failure_counterexample :
  getUserId throwing_logger (req sample_state) = Throw (Thrown (js "no session")) /\
  (on_finish throwing_logger (sample_listener 0) sample_state).1
    = Throw (Thrown (js "no session")) /\
  emitted sample_state
    (on_finish throwing_logger (sample_listener 0) sample_state).2 = [] /\
  ((request throwing_logger;; emit_finish throwing_logger) sample_state).1
    = Throw (Thrown (js "no session")) /\
  console_log
    ((request throwing_logger;; emit_finish throwing_logger) sample_state).2 = [] /\
  ~ (exists s' : State,
       on_finish throwing_logger (sample_listener 0) sample_state = (Normal tt, s')).
Proof.
  split_and!.
  - reflexivity.
  - rewrite on_finish_run. reflexivity.
  - rewrite on_finish_emitted. reflexivity.
  - vm_compute. reflexivity.
  - vm_compute. reflexivity.
  - intros (s' & Hs'). rewrite on_finish_run in Hs'. discriminate Hs'.
Qed.

(** * The further properties on the sample inputs *)

Lemma empty_redaction_list_masks_nothing_witness :
  safeHeaders (new_GcpLogger unredacting_options) sample_request
    = headers sample_request.
Proof.
  apply (empty_redaction_list_masks_nothing unredacting_options sample_request).
  reflexivity.
Defined.

Lemma default_skipPaths_exact_witness :
  shouldSkip sample_logger (js "/metrics") = true /\
  shouldSkip sample_logger (js "/healthz/") = false /\
  shouldSkip (new_GcpLogger unredacting_options) (js "/healthz") = false.
Proof.
  destruct (default_skipPaths_exact (options_with None) (js "/metrics"))
    as (Hdef & _).
  destruct (default_skipPaths_exact (options_with None) (js "/healthz/"))
    as (Hother & _).
  destruct (default_skipPaths_exact unredacting_options (js "/healthz"))
    as (_ & Hnone).
  split_and!.
  - apply (Hdef eq_refl). right. left. reflexivity.
  - apply not_true_is_false. intros Hskip.
    apply (Hother eq_refl) in Hskip.
    destruct Hskip as [Hp | [Hp | Hp]]; discriminate Hp.
  - apply Hnone. reflexivity.
Defined.

Lemma safeBody_bounded_witness :
  safeBody sample_logger sample_request
    = Normal (Some (js "abcdefghij" ++ ellipsis :: js "[truncated]")) /\
  (Z.of_nat (length (js "abcdefghij" ++ ellipsis :: js "[truncated]")) <= 22)%Z.
Proof.
  assert (Hrun : safeBody sample_logger sample_request
            = Normal (Some (js "abcdefghij" ++ ellipsis :: js "[truncated]")))
    by reflexivity.
  split; [exact Hrun |].
  destruct (safeBody_bounded sample_logger sample_request _ Hrun) as (_ & Hlen).
  apply Hlen. simpl. lia.
Defined.

Lemma buildTrace_some_iff_witness :
  (exists t : jsstring,
     buildTrace sample_logger (env sample_state) (traced_request "abc123/1;o=1")
       = Normal (Some t)) /\
  ~ (exists t : jsstring,
       buildTrace sample_logger (env sample_state) (traced_request "/1;o=1")
         = Normal (Some t)).
Proof.
  destruct (buildTrace_some_iff sample_logger (env sample_state)
              (traced_request "abc123/1;o=1") (Some (js "abc123/1;o=1"))
              (lookup_singleton_eq _ _)) as (Hyes & _).
  destruct (buildTrace_some_iff sample_logger (env sample_state)
              (traced_request "/1;o=1") (Some (js "/1;o=1"))
              (lookup_singleton_eq _ _)) as (Hno & _).
  split.
  - apply Hyes. split; [reflexivity |].
    eexists _, _. split; [reflexivity | discriminate].
  - intros Hsome. apply Hno in Hsome as (_ & c & rest & Hhdr & Hc).
    injection Hhdr as <- _. by apply Hc.
Defined.

Lemma buildTrace_ignores_span_witness :
  buildTrace sample_logger (env sample_state) (traced_request "abc123/1;o=1")
    = buildTrace sample_logger (env sample_state) (traced_request "abc123").
Proof.
  apply (buildTrace_ignores_span sample_logger (env sample_state)
           (traced_request "abc123/1;o=1") (traced_request "abc123")
           (js "abc123") (js "1;o=1")); apply lookup_singleton_eq.
Defined.

Lemma request_frame_witness :
  (request sample_logger array_trace_state).1
    = Throw (TypeError (js "traceHeader.split is not a function")) /\
  finish_listeners (res (request sample_logger array_trace_state).2) = [] /\
  is_Some (requestId (req (request sample_logger array_trace_state).2)) /\
  console_log (request sample_logger array_trace_state).2 = [] /\
  hrtime_reads (request sample_logger array_trace_state).2 = 1.
Proof.
  destruct (request_frame sample_logger array_trace_state eq_refl)
    as (Hlog & _ & _ & Hreads & _ & _ & Hthrow).
  destruct (Hthrow (TypeError (js "traceHeader.split is not a function")) eq_refl)
    as (Hexn & Hnone & Hid).
  split_and!; [exact Hexn | exact Hnone | exact Hid | exact Hlog | exact Hreads].
Defined.

Lemma lifecycle_logs_once_witness :
  exists (e : Entry) (s' : State),
    lifecycle sample_logger sample_state = (Normal tt, s') /\
    console_log s' = [e] /\
    console_error s' = [] /\
    hrtime_reads s' = 2 /\
    written "durationMs" e = Some (VNum 7) /\
    written "trace" e = Some (VStr (js "projects/proj1/traces/abc123")) /\
    written "requestId" e = Some (VStr (js "req-42")) /\
    written "userId" e = Some VNull.
Proof.
  destruct (lifecycle_logs_once sample_logger sample_state
              (Some (js "projects/proj1/traces/abc123")) None
              eq_refl eq_refl eq_refl eq_refl)
    as (e & s' & Hrun & Hlog & Herr & Hreads & Hd & Ht & Hid & Hu & _).
  exists e, s'.
  split_and!; [exact Hrun | exact Hlog | exact Herr | exact Hreads
              | exact Hd | exact Ht | exact Hid | exact Hu].
Defined.

Lemma completion_entry_channel_witness :
  exists e : Entry,
    console_log (on_finish sample_logger (sample_listener 1000000) failed_state).2
      = [e] /\
    console_error (on_finish sample_logger (sample_listener 1000000) failed_state).2
      = [] /\
    written "severity" e = Some (VStr (js "ERROR")) /\
    written_in "httpRequest" "status" e = Some (VNum 503).
Proof.
  destruct (completion_entry_channel sample_logger (sample_listener 1000000)
              failed_state None eq_refl)
    as (e & Hlog & Herr & _ & Hsev & _ & Hstatus & _).
  exists e. split_and!; [exact Hlog | exact Herr | | exact Hstatus].
  apply Hsev. simpl. lia.
Defined.

Lemma durationMs_rounds_down_witness :
  exists (e : Entry) (d : Z),
    emitted failed_state
      (on_finish sample_logger (sample_listener 1000001) failed_state).2 = [e] /\
    written "durationMs" e = Some (VNum d) /\
    (1000000 * d <= 6999999 < 1000000 * (d + 1))%Z.
Proof.
  destruct (durationMs_rounds_down sample_logger (sample_listener 1000001)
              failed_state None eq_refl)
    as (e & d & He & Hd & Hbound & _).
  - simpl. unfold steady_clock. lia.
  - exists e, d. split; [exact He | split; [exact Hd | exact Hbound]].
Defined.

Lemma error_ignores_skipPaths_witness :
  shouldSkip sample_logger (path (req healthz_state)) = true /\
  exists (e : Entry) (s' : State),
    (request sample_logger;; error sample_logger boom) healthz_state
      = (Normal (NextWith boom), s') /\
    console_error s' = [e] /\
    written "path" e = Some (VStr (js "/healthz")) /\
    written "requestId" e
      = Some (VStr (js "00000000-0000-4000-8000-000000000000")).
Proof.
  split; [reflexivity |].
  destruct (error_ignores_skipPaths sample_logger boom healthz_state None
              (Some (js "projects/proj1/traces/abc123"))
              eq_refl eq_refl eq_refl eq_refl)
    as (e & s' & Hrun & Herr & _ & _ & _ & Hpath & Hid).
  exists e, s'. split_and!; [exact Hrun | exact Herr | exact Hpath | exact Hid].
Defined.

Lemma error_stores_nothing_witness :
  requestId (req (error sample_logger boom sample_state).2) = None /\
  exists (e1 e2 : Entry) (s' : State),
    (error sample_logger boom;; error sample_logger boom) sample_state
      = (Normal (NextWith boom), s') /\
    console_error s' = [e1; e2] /\
    uuid_calls s' = 2.
Proof.
  destruct (error_stores_nothing sample_logger boom sample_state)
    as (Hreq & _ & _ & _ & Htwice).
  split; [by rewrite Hreq |].
  destruct (Htwice eq_refl None (Some (js "projects/proj1/traces/abc123"))
              eq_refl eq_refl) as (e1 & e2 & s' & Hrun & Herr & _ & _).
  exists e1, e2, s'. split_and!; [exact Hrun | exact Herr |].
  assert (Hcalls : uuid_calls
            ((error sample_logger boom;; error sample_logger boom)
               sample_state).2 = 2) by (vm_compute; reflexivity).
  by rewrite Hrun in Hcalls.
Defined.

Lemma app_logger_defaults_witness :
  masks app_logger (js "Authorization") = true /\
  masks app_logger (js "COOKIE") = true /\
  masks app_logger (js "x-api-key") = false.
Proof.
  destruct (app_logger_defaults (sample_listener 0) sample_state
              (js "Authorization")) as (_ & Hauth).
  destruct (app_logger_defaults (sample_listener 0) sample_state
              (js "COOKIE")) as (_ & Hcookie).
  destruct (app_logger_defaults (sample_listener 0) sample_state
              (js "x-api-key")) as (_ & Hkey).
  split_and!.
  - apply Hauth. left. reflexivity.
  - apply Hcookie. right. reflexivity.
  - apply not_true_is_false. intros Hm. apply Hkey in Hm as [Hm | Hm];
      discriminate Hm.
Defined.
